(** * neono: the [Result] and [Option] containers of [libs/result] and [libs/option]

    A shallow embedding of [libs/result/src/Result.ts] and of the parts of
    [libs/option/src/Option.ts] that [Result.ts] and the bridge operations
    use.

    The containers are JavaScript objects ([{ _tag: "Ok", value }],
    [{ __tag: "Some", value }], ...).  Several operations return the very
    object they were given ([inspect], [or], [and], [combine] on a failure),
    others build a new one, and [combine] fills an array in place; the model
    therefore keeps an explicit store of objects and hands references around,
    so that "the same object" and "an equal object" are different statements.
    Callbacks are arbitrary store transformers that may throw. *)

From Stdlib Require Import ZArith Ascii DecimalString.
From stdpp Require Import base list strings.

(** ** Values and the object store *)

(** A reference is the index of an object in the store. *)
Abbreviation loc := nat (only parsing).

(** JavaScript values.  A number is a double that is an integer: [VNum n]
    is the double nearest to [n], which is [n] itself up to [2 ^ 53] and
    wherever [n] is a double.  Strings are the UTF-8 bytes of a well-formed
    string. *)
Inductive val : Type :=
| VUndefined
| VNull
| VBool (b : bool)
| VNum (n : Z)
| VStr (s : string)
| VRef (l : loc).

(** Store objects: a plain object is the list of its own enumerable
    properties in enumeration order, an array is the list of its elements. *)
Inductive obj : Type :=
| OObject (fields : list (string * val))
| OArray (items : list val).

Abbreviation heap := (list obj) (only parsing).

(** What a call can throw: [new Error(message)], or the engine's
    [TypeError] (its message is engine-defined and not modelled). *)
Inductive exn : Type :=
| Error (message : string)
| TypeError.

Inductive completion (A : Type) : Type :=
| Return (a : A)
| Throw (e : exn).
Arguments Return {A} a.
Arguments Throw {A} e.

(** Computations read and update the store and complete normally or
    abruptly. *)
Definition M (A : Type) : Type := heap -> completion A * heap.

Definition ret {A} (a : A) : M A := fun h => (Return a, h).

Definition throw {A} (e : exn) : M A := fun h => (Throw e, h).

Definition bind {A B} (m : M A) (k : A -> M B) : M B :=
  fun h =>
    match m h with
    | (Return a, h') => k a h'
    | (Throw e, h') => (Throw e, h')
    end.

Notation "'let*' x ':=' m 'in' k" := (bind m (fun x => k))
  (at level 10, x name, m at level 100, k at level 200).

Notation "'do*' m 'in' k" := (bind m (fun _ => k))
  (at level 10, m at level 100, k at level 200).

(** A callback: a JavaScript function of one argument. *)
Abbreviation callback := (val -> M val) (only parsing).

(** [x === y] on the values of the model. *)
Definition strict_equals (x y : val) : bool :=
  match x, y with
  | VUndefined, VUndefined => true
  | VNull, VNull => true
  | VBool a, VBool b => Bool.eqb a b
  | VNum a, VNum b => Z.eqb a b
  | VStr a, VStr b => String.eqb a b
  | VRef a, VRef b => Nat.eqb a b
  | _, _ => false
  end.

(** The own property [k] of a plain object, [undefined] when it has none. *)
Fixpoint field (fs : list (string * val)) (k : string) : val :=
  match fs with
  | [] => VUndefined
  | (k', v) :: fs' => if String.eqb k' k then v else field fs' k
  end.

(** [v.k] for the property names the two modules read ([_tag], [__tag],
    [value], [error]): reading a property of [undefined] or [null] is a
    [TypeError]; primitives and arrays have no such property.  A reference
    always designates an object; one that points outside the store is
    treated as [null] is. *)
Definition get (v : val) (k : string) : M val :=
  fun h =>
    match v with
    | VUndefined | VNull => (Throw TypeError, h)
    | VBool _ | VNum _ | VStr _ => (Return VUndefined, h)
    | VRef l =>
        match h !! l with
        | Some (OObject fs) => (Return (field fs k), h)
        | Some (OArray _) => (Return VUndefined, h)
        | None => (Throw TypeError, h)
        end
    end.

(** An object or array literal: a new object, at a new reference. *)
Definition alloc (o : obj) : M val :=
  fun h => (Return (VRef (length h)), h ++ [o]).

(** [a.push(v)]. *)
Definition push (a : val) (v : val) : M unit :=
  fun h =>
    match a with
    | VRef l =>
        match h !! l with
        | Some (OArray items) => (Return tt, <[l := OArray (items ++ [v])]> h)
        | _ => (Throw TypeError, h)
        end
    | _ => (Throw TypeError, h)
    end.

(** ** [JSON.stringify] *)

Definition hex_digit (n : N) : ascii :=
  match n with
  | 0 => "0" | 1 => "1" | 2 => "2" | 3 => "3" | 4 => "4" | 5 => "5"
  | 6 => "6" | 7 => "7" | 8 => "8" | 9 => "9" | 10 => "a" | 11 => "b"
  | 12 => "c" | 13 => "d" | 14 => "e" | _ => "f"
  end%char%N.

(** One character of [QuoteJSONString]. *)
Definition quote_char (c : ascii) : string :=
  let n := N_of_ascii c in
  if (n =? 8)%N then "\b"
  else if (n =? 9)%N then "\t"
  else if (n =? 10)%N then "\n"
  else if (n =? 12)%N then "\f"
  else if (n =? 13)%N then "\r"
  else if (n =? 34)%N then String "\"%char (String c "")
  else if (n =? 92)%N then "\\"
  else if (n <? 32)%N then
    "\u00" +:+ String (hex_digit (n / 16)) (String (hex_digit (n mod 16)) "")
  else String c "".

Fixpoint quote_chars (s : string) : string :=
  match s with
  | EmptyString => ""
  | String c s' => quote_char c +:+ quote_chars s'
  end.

Definition dquote : string := String (ascii_of_N 34) "".

Definition QuoteJSONString (s : string) : string :=
  dquote +:+ quote_chars s +:+ dquote.

(** The double nearest to the integer [n >= 0], a tie going to the even
    mantissa; [None] when it is beyond the largest double, where the number
    is [Infinity]. *)
Definition nearest_double (n : Z) : option Z :=
  let e := (Z.log2 n - 52)%Z in
  if (e <=? 0)%Z then Some n
  else
    let q := (n / 2 ^ e)%Z in
    let r := (n mod 2 ^ e)%Z in
    let half := (2 ^ (e - 1))%Z in
    let q' :=
      if ((half <? r) || ((r =? half) && Z.odd q))%Z then (q + 1)%Z else q in
    if (2 ^ 1024 <=? q' * 2 ^ e)%Z then None else Some (q' * 2 ^ e)%Z.

(** Whether the integer [c] denotes the double [x > 0], that is, is nearer
    to [x] than to the doubles next to it (as near, where the mantissa of
    [x] is even).  The gap below a power of two is half the gap above it;
    the distances are taken four times to stay in the integers. *)
Definition rounds_to (x c : Z) : bool :=
  let e := (Z.log2 x - 52)%Z in
  if (e <=? 0)%Z then (c =? x)%Z
  else
    let m := (x / 2 ^ e)%Z in
    let above := (2 ^ (e + 1))%Z in
    let below := if (m =? 2 ^ 52)%Z then (2 ^ e)%Z else (2 ^ (e + 1))%Z in
    let distance := (4 * Z.abs (c - x))%Z in
    let bound := if (x <=? c)%Z then above else below in
    ((distance <? bound) || ((distance =? bound) && Z.even m))%Z.

Definition decimal (n : Z) : string := NilZero.string_of_int (Z.to_int n).

(** The integer with the fewest significant digits that denotes the double
    [x], the nearest to [x] where several do: with [k] significant digits,
    for [k] from 1 on, the candidates are the two multiples of
    [10 ^ (d - k)] around [x], [d] being the number of digits of [x]. *)
Fixpoint shortest_from (fuel : nat) (k d x : Z) : Z :=
  match fuel with
  | O => x
  | S fuel' =>
      let p := (d - k)%Z in
      if (p <=? 0)%Z then x
      else
        let s := (x / 10 ^ p)%Z in
        let lo := (s * 10 ^ p)%Z in
        let hi := (lo + 10 ^ p)%Z in
        match rounds_to x lo, rounds_to x hi with
        | true, true =>
            if ((x - lo <? hi - x) || ((x - lo =? hi - x) && Z.even s))%Z
            then lo else hi
        | true, false => lo
        | false, true => hi
        | false, false => shortest_from fuel' (k + 1)%Z d x
        end
  end.

Definition shortest (x : Z) : Z :=
  shortest_from 17 1 (Z.of_nat (String.length (decimal x))) x.

Fixpoint strip_trailing_zeros (s : string) : string :=
  match s with
  | EmptyString => EmptyString
  | String c s' =>
      match strip_trailing_zeros s' with
      | EmptyString =>
          if Ascii.eqb c "0" then EmptyString else String c EmptyString
      | t => String c t
      end
  end.

(** [Number::toString] of a double [x >= 0] that is an integer: its
    shortest digits, followed by zeros up to 21 digits and in exponent form
    beyond. *)
Definition render_double (x : Z) : string :=
  let digits := decimal (shortest x) in
  let n := String.length digits in
  if (n <=? 21)%nat then digits
  else
    match strip_trailing_zeros digits with
    | EmptyString => digits
    | String c EmptyString =>
        String c "" +:+ "e+" +:+ decimal (Z.of_nat (n - 1))
    | String c rest =>
        String c "" +:+ "." +:+ rest +:+ "e+" +:+ decimal (Z.of_nat (n - 1))
    end.

Definition Number_toString (n : Z) : string :=
  let sign := if (n <? 0)%Z then "-" else "" in
  match nearest_double (Z.abs n) with
  | Some x => sign +:+ render_double x
  | None => sign +:+ "Infinity"
  end.

(** [JSON.stringify] writes a number that is not finite as [null]. *)
Definition SerializeJSONNumber (n : Z) : string :=
  match nearest_double (Z.abs n) with
  | Some _ => Number_toString n
  | None => "null"
  end.

Fixpoint join_comma (parts : list string) : string :=
  match parts with
  | [] => ""
  | [p] => p
  | p :: ps => p +:+ "," +:+ join_comma ps
  end.

(** [SerializeJSONProperty] with its two helpers, on the value itself (no
    [toJSON], no replacer, no indentation).  [stack] is the list of the
    objects being serialized; meeting one of them again is the cyclic
    structure [TypeError].  The result is [None] for [undefined].  [fuel]
    bounds the nesting depth; a nesting deeper than the number of objects of
    the store would have to repeat one, so it is the same [TypeError]. *)
Fixpoint SerializeJSONProperty (fuel : nat) (h : heap) (stack : list loc)
    (v : val) : completion (option string) :=
  match fuel with
  | O => Throw TypeError
  | S fuel' =>
      match v with
      | VUndefined => Return None
      | VNull => Return (Some "null")
      | VBool true => Return (Some "true")
      | VBool false => Return (Some "false")
      | VNum n => Return (Some (SerializeJSONNumber n))
      | VStr s => Return (Some (QuoteJSONString s))
      | VRef l =>
          if bool_decide (l ∈ stack) then Throw TypeError
          else
            match h !! l with
            | None => Throw TypeError
            | Some (OArray items) =>
                let fix SerializeJSONArray (items : list val)
                    : completion (list string) :=
                  match items with
                  | [] => Return []
                  | x :: xs =>
                      match SerializeJSONProperty fuel' h (l :: stack) x with
                      | Throw e => Throw e
                      | Return strP =>
                          match SerializeJSONArray xs with
                          | Throw e => Throw e
                          | Return partial =>
                              Return (default "null" strP :: partial)
                          end
                      end
                  end in
                match SerializeJSONArray items with
                | Throw e => Throw e
                | Return partial => Return (Some ("[" +:+ join_comma partial +:+ "]"))
                end
            | Some (OObject fs) =>
                let fix SerializeJSONObject (fs : list (string * val))
                    : completion (list string) :=
                  match fs with
                  | [] => Return []
                  | (k, x) :: fs' =>
                      match SerializeJSONProperty fuel' h (l :: stack) x with
                      | Throw e => Throw e
                      | Return strP =>
                          match SerializeJSONObject fs' with
                          | Throw e => Throw e
                          | Return partial =>
                              match strP with
                              | None => Return partial
                              | Some s =>
                                  Return ((QuoteJSONString k +:+ ":" +:+ s) :: partial)
                              end
                          end
                      end
                  end in
                match SerializeJSONObject fs with
                | Throw e => Throw e
                | Return partial => Return (Some ("{" +:+ join_comma partial +:+ "}"))
                end
            end
      end
  end.

(** [JSON.stringify(v)]: a string, or [undefined] ([None]), or a thrown
    [TypeError]. *)
Definition JSON_stringify (v : val) : M (option string) :=
  fun h => (SerializeJSONProperty (S (length h)) h [] v, h).

(** [new Error(message)]: an [undefined] argument leaves the message empty. *)
Definition new_Error (message : option string) : exn :=
  Error (default "" message).

(** A template literal renders [undefined] as the word. *)
Definition template (x : option string) : string :=
  default "undefined" x.

(** ** Truthiness and indexed reads *)

(** [ToBoolean], what an [if] makes of a value. *)
Definition ToBoolean (v : val) : bool :=
  match v with
  | VUndefined | VNull => false
  | VBool b => b
  | VNum n => negb (Z.eqb n 0)
  | VStr s => negb (String.eqb s "")
  | VRef _ => true
  end.

(** [v[i]] for a literal index [i]: the element of an array, the property
    of that name of a plain object, the character of a string (the strings
    of the model give it for ASCII text); [undefined] where there is none,
    and a [TypeError] on [undefined] and [null]. *)
Definition get_index (v : val) (i : nat) : M val :=
  fun h =>
    match v with
    | VUndefined | VNull => (Throw TypeError, h)
    | VBool _ | VNum _ => (Return VUndefined, h)
    | VStr s =>
        match String.get i s with
        | Some c => (Return (VStr (String c "")), h)
        | None => (Return VUndefined, h)
        end
    | VRef l =>
        match h !! l with
        | Some (OArray items) => (Return (default VUndefined (items !! i)), h)
        | Some (OObject fs) =>
            (Return (field fs (NilZero.string_of_uint (Nat.to_uint i))), h)
        | None => (Throw TypeError, h)
        end
    end.

(** ** [Option.ts], first part

    [Option.ts] and [Result.ts] import each other.  This module holds the
    part of [Option.ts] that [Result.ts] calls; the operations of
    [Option.ts] that call [Result.ts] follow it, in [OptionBridge]. *)

Module Option.

Definition Some (value : val) : M val :=
  alloc (OObject [("__tag", VStr "Some"); ("value", value)]).

(** [const None = { __tag: "None" }]: one object, built when the module is
    loaded; it is the first object of the store. *)
Definition None_object : obj := OObject [("__tag", VStr "None")].

Definition None : val := VRef 0.

Definition isSome (self : val) : M bool :=
  let* tag := get self "__tag" in
  ret (strict_equals tag (VStr "Some")).

Definition isNone (self : val) : M bool :=
  let* tag := get self "__tag" in
  ret (strict_equals tag (VStr "None")).

Definition fromNullable (value : val) : M val :=
  if strict_equals value VNull then ret None else Some value.

Definition map (fn : callback) (self : val) : M val :=
  let* none := isNone self in
  if none then ret self
  else
    let* value := get self "value" in
    let* u := fn value in
    Some u.

Definition mapOr (defaultValue : val) (fn : callback) (self : val) : M val :=
  let* none := isNone self in
  if none then Some defaultValue
  else
    let* value := get self "value" in
    let* u := fn value in
    Some u.

(** [cb] takes no argument. *)
Definition mapOrElse (cb : M val) (fn : callback) (self : val) : M val :=
  let* none := isNone self in
  if none then
    let* u := cb in
    Some u
  else
    let* value := get self "value" in
    let* u := fn value in
    Some u.

(** The argument of [match]: [{ Some: (v) => ..., None: ... }]. *)
Record match_fns : Type := { fns_Some : callback; fns_None : val }.

(** [match], a keyword here. *)
Definition match_ (fns : match_fns) (self : val) : M val :=
  let* none := isNone self in
  if none then Some (fns_None fns)
  else
    let* value := get self "value" in
    let* u := fns_Some fns value in
    Some u.

Definition unwrap (self : val) : M val :=
  let* none := isNone self in
  if none then
    throw (new_Error
             (Datatypes.Some "[Option] Tried to unwrap an `Option.None`."))
  else get self "value".

Definition unwrapOr (defaultValue : val) (self : val) : M val :=
  let* none := isNone self in
  if none then ret defaultValue else get self "value".

Definition unwrapOrElse (fn : M val) (self : val) : M val :=
  let* none := isNone self in
  if none then fn else get self "value".

Definition and (secondOption : val) (self : val) : M val :=
  let* none := isNone self in
  if none then ret self else ret secondOption.

Definition andThen (callback : callback) (self : val) : M val :=
  let* none := isNone self in
  if none then ret self
  else
    let* value := get self "value" in
    callback value.

Definition expect (message : string) (self : val) : M val :=
  let* none := isNone self in
  if none then throw (new_Error (Datatypes.Some message))
  else get self "value".

Definition filter (predicate : callback) (self : val) : M val :=
  let* none := isNone self in
  if none then ret self
  else
    let* value := get self "value" in
    let* keep := predicate value in
    if ToBoolean keep then ret self else ret None.

Definition flatten (self : val) : M val :=
  let* none := isNone self in
  if none then ret self else get self "value".

Definition inspect (fn : callback) (self : val) : M val :=
  let* none := isNone self in
  if none then ret self
  else
    let* value := get self "value" in
    do* fn value in
    ret self.

Definition or (defaultOption : val) (self : val) : M val :=
  let* none := isNone self in
  if none then ret defaultOption else ret self.

Definition orElse (fn : M val) (self : val) : M val :=
  let* none := isNone self in
  if none then fn else ret self.

Definition unzip (self : val) : M val :=
  let* none := isNone self in
  if none then alloc (OArray [None; None])
  else
    let* pair := get self "value" in
    let* a := get_index pair 0 in
    let* first := Some a in
    let* pair' := get self "value" in
    let* b := get_index pair' 1 in
    let* second := Some b in
    alloc (OArray [first; second]).

Definition zip (other : val) (self : val) : M val :=
  let* none := isNone self in
  if none then ret self
  else
    let* other_none := isNone other in
    if other_none then ret other
    else
      let* a := get self "value" in
      let* b := get other "value" in
      let* pair := alloc (OArray [a; b]) in
      Some pair.

Definition zipWith (other : val) (fn : val -> val -> M val) (self : val)
    : M val :=
  let* none := isNone self in
  if none then ret self
  else
    let* other_none := isNone other in
    if other_none then ret other
    else
      let* a := get self "value" in
      let* b := get other "value" in
      let* v := fn a b in
      Some v.

End Option.

(** ** [Result.ts] *)

Module Result.

Definition Ok (value : val) : M val :=
  alloc (OObject [("_tag", VStr "Ok"); ("value", value)]).

Definition Err (error : val) : M val :=
  alloc (OObject [("_tag", VStr "Err"); ("error", error)]).

Definition isOk (self : val) : M bool :=
  let* tag := get self "_tag" in
  ret (strict_equals tag (VStr "Ok")).

Definition isErr (self : val) : M bool :=
  let* tag := get self "_tag" in
  ret (strict_equals tag (VStr "Err")).

Definition isOkAnd (predicate : callback) (self : val) : M val :=
  let* failed := isErr self in
  if failed then ret (VBool false)
  else
    let* value := get self "value" in
    predicate value.

Definition isErrAnd (predicate : callback) (self : val) : M val :=
  let* succeeded := isOk self in
  if succeeded then ret (VBool false)
  else
    let* error := get self "error" in
    predicate error.

(** The [for ... of] loop of [combine]: [Some result] when the loop is left
    by [return result], [None] when it runs to its end. *)
Fixpoint combine_loop (values : val) (results : list val) : M (option val) :=
  match results with
  | [] => ret None
  | result :: rest =>
      let* succeeded := isOk result in
      if succeeded then
        let* value := get result "value" in
        do* push values value in
        combine_loop values rest
      else ret (Some result)
  end.

Definition combine (results : list val) : M val :=
  let* values := alloc (OArray []) in
  let* returned := combine_loop values results in
  match returned with
  | Some result => ret result
  | None => Ok values
  end.

Definition map (fn : callback) (self : val) : M val :=
  let* failed := isErr self in
  if failed then ret self
  else
    let* value := get self "value" in
    let* u := fn value in
    Ok u.

Definition mapErr (fn : callback) (self : val) : M val :=
  let* succeeded := isOk self in
  if succeeded then ret self
  else
    let* error := get self "error" in
    let* f := fn error in
    Err f.

Definition mapOr (defaultValue : val) (fn : callback) (self : val) : M val :=
  let* failed := isErr self in
  if failed then Ok defaultValue
  else
    let* value := get self "value" in
    let* u := fn value in
    Ok u.

Definition mapOrElse (fnWhenFailure fnWhenSuccess : callback) (self : val)
    : M val :=
  let* failed := isErr self in
  if failed then
    let* error := get self "error" in
    let* u := fnWhenFailure error in
    Ok u
  else
    let* value := get self "value" in
    let* u := fnWhenSuccess value in
    Ok u.

Definition andThen (fn : callback) (self : val) : M val :=
  let* failed := isErr self in
  if failed then ret self
  else
    let* value := get self "value" in
    fn value.

Definition and (result : val) (self : val) : M val :=
  let* failed := isErr self in
  if failed then ret self else ret result.

Definition ok (self : val) : M val :=
  let* failed := isErr self in
  if failed then ret Option.None
  else
    let* value := get self "value" in
    Option.Some value.

Definition inspect (fn : callback) (self : val) : M val :=
  let* failed := isErr self in
  if failed then ret self
  else
    let* value := get self "value" in
    do* fn value in
    ret self.

Definition inspectErr (fn : callback) (self : val) : M val :=
  let* succeeded := isOk self in
  if succeeded then ret self
  else
    let* error := get self "error" in
    do* fn error in
    ret self.

Definition flatten (self : val) : M val :=
  let* failed := isErr self in
  if failed then ret self
  else
    let* inner := get self "value" in
    let* inner_failed := isErr inner in
    if inner_failed then get self "value" else get self "value".

Definition intoOk (self : val) : M val :=
  let* succeeded := isOk self in
  if succeeded then get self "value" else ret VUndefined.

Definition intoErr (self : val) : M val :=
  let* failed := isErr self in
  if failed then get self "error" else ret VUndefined.

Definition expect (message : string) (self : val) : M val :=
  let* failed := isErr self in
  if failed then
    let* error := get self "error" in
    let* json := JSON_stringify error in
    throw (new_Error (Some (message +:+ ": " +:+ template json)))
  else get self "value".

Definition expectErr (message : string) (self : val) : M val :=
  let* succeeded := isOk self in
  if succeeded then
    let* value := get self "value" in
    let* json := JSON_stringify value in
    throw (new_Error (Some (message +:+ ": " +:+ template json)))
  else get self "error".

Definition err (self : val) : M val :=
  let* succeeded := isOk self in
  if succeeded then ret Option.None
  else
    let* error := get self "error" in
    Option.Some error.

Definition or (other : val) (self : val) : M val :=
  let* failed := isErr self in
  if failed then ret other else ret self.

Definition orElse (fn : callback) (self : val) : M val :=
  let* succeeded := isOk self in
  if succeeded then ret self
  else
    let* error := get self "error" in
    fn error.

Definition transpose (self : val) : M val :=
  let* succeeded := isOk self in
  if succeeded then
    let* inner := get self "value" in
    let* none := Option.isNone inner in
    if none then get self "value"
    else
      let* some := get self "value" in
      let* value := get some "value" in
      let* r := Ok value in
      Option.Some r
  else Option.Some self.

Definition unwrap (self : val) : M val :=
  let* succeeded := isOk self in
  if succeeded then get self "value"
  else
    let* error := get self "error" in
    let* json := JSON_stringify error in
    throw (new_Error json).

Definition unwrapErr (self : val) : M val :=
  let* failed := isErr self in
  if failed then get self "error"
  else
    let* value := get self "value" in
    let* json := JSON_stringify value in
    throw (new_Error json).

Definition unwrapOr (defaultValue : val) (self : val) : M val :=
  let* failed := isErr self in
  if failed then ret defaultValue else get self "value".

Definition unwrapOrElse (callback : callback) (self : val) : M val :=
  let* failed := isErr self in
  if failed then
    let* error := get self "error" in
    callback error
  else get self "value".

End Result.

(** ** [Option.ts], second part: the operations that build or read a [Result] *)

Module OptionBridge.

Definition okOr (error : val) (self : val) : M val :=
  let* none := Option.isNone self in
  if none then Result.Err error
  else
    let* value := get self "value" in
    Result.Ok value.

(** [fn] takes no argument. *)
Definition okOrElse (fn : M val) (self : val) : M val :=
  let* none := Option.isNone self in
  if none then
    let* error := fn in
    Result.Err error
  else
    let* value := get self "value" in
    Result.Ok value.

Definition transpose (self : val) : M val :=
  let* none := Option.isNone self in
  if none then Result.Ok self
  else
    let* inner := get self "value" in
    let* failed := Result.isErr inner in
    if failed then get self "value"
    else
      let* r := get self "value" in
      let* value := get r "value" in
      let* some := Option.Some value in
      Result.Ok some.

End OptionBridge.

(** ** Reading a reference as a container

    [Result.Result<T, E>] is the type of the objects whose [_tag] is ["Ok"]
    (with a [value]) or ["Err"] (with an [error]); [Option.Option<T>] is the
    type of the objects whose [__tag] is ["Some"] (with a [value]) or
    ["None"].  [as_result] and [as_option] read a value of the store at
    these types. *)

Inductive result_shape : Type :=
| Success (value : val)
| Failure (error : val).

Inductive option_shape : Type :=
| Present (value : val)
| Absent.

Definition as_result (h : heap) (v : val) : option result_shape :=
  match v with
  | VRef l =>
      match h !! l with
      | Some (OObject fs) =>
          if strict_equals (field fs "_tag") (VStr "Ok")
          then Some (Success (field fs "value"))
          else if strict_equals (field fs "_tag") (VStr "Err")
          then Some (Failure (field fs "error"))
          else None
      | _ => None
      end
  | _ => None
  end.

Definition as_option (h : heap) (v : val) : option option_shape :=
  match v with
  | VRef l =>
      match h !! l with
      | Some (OObject fs) =>
          if strict_equals (field fs "__tag") (VStr "Some")
          then Some (Present (field fs "value"))
          else if strict_equals (field fs "__tag") (VStr "None")
          then Some Absent
          else None
      | _ => None
      end
  | _ => None
  end.

(** The store of a program that has loaded [Option.ts]: [Option.None] is
    there. *)
Definition loaded (h : heap) : Prop := h !! 0 = Some Option.None_object.

(** A callback that completes normally whatever it is given. *)
Definition total (fn : callback) : Prop :=
  forall (v : val) (h : heap), exists u h', fn v h = (Return u, h').

Definition raises {A} (r : completion A * heap) : bool :=
  match r with
  | (Throw _, _) => true
  | (Return _, _) => false
  end.

(** ** The exported operations

    [export const Result = { Err, Ok, and, ... }]: every operation of the
    table, with the arguments of one application of it. *)

Inductive call : Type :=
| call_Err (error : val)
| call_Ok (value : val)
| call_and (result self : val)
| call_andThen (fn : callback) (self : val)
| call_combine (results : list val)
| call_err (self : val)
| call_expect (message : string) (self : val)
| call_expectErr (message : string) (self : val)
| call_flatten (self : val)
| call_inspect (fn : callback) (self : val)
| call_inspectErr (fn : callback) (self : val)
| call_intoErr (self : val)
| call_intoOk (self : val)
| call_isErr (self : val)
| call_isErrAnd (predicate : callback) (self : val)
| call_isOk (self : val)
| call_isOkAnd (predicate : callback) (self : val)
| call_map (fn : callback) (self : val)
| call_mapErr (fn : callback) (self : val)
| call_mapOr (defaultValue : val) (fn : callback) (self : val)
| call_mapOrElse (fnWhenFailure fnWhenSuccess : callback) (self : val)
| call_ok (self : val)
| call_or (other self : val)
| call_orElse (fn : callback) (self : val)
| call_transpose (self : val)
| call_unwrap (self : val)
| call_unwrapErr (self : val)
| call_unwrapOr (defaultValue : val) (self : val)
| call_unwrapOrElse (callback : callback) (self : val).

Definition run (c : call) : M val :=
  match c with
  | call_Err error => Result.Err error
  | call_Ok value => Result.Ok value
  | call_and result self => Result.and result self
  | call_andThen fn self => Result.andThen fn self
  | call_combine results => Result.combine results
  | call_err self => Result.err self
  | call_expect message self => Result.expect message self
  | call_expectErr message self => Result.expectErr message self
  | call_flatten self => Result.flatten self
  | call_inspect fn self => Result.inspect fn self
  | call_inspectErr fn self => Result.inspectErr fn self
  | call_intoErr self => Result.intoErr self
  | call_intoOk self => Result.intoOk self
  | call_isErr self => let* b := Result.isErr self in ret (VBool b)
  | call_isErrAnd predicate self => Result.isErrAnd predicate self
  | call_isOk self => let* b := Result.isOk self in ret (VBool b)
  | call_isOkAnd predicate self => Result.isOkAnd predicate self
  | call_map fn self => Result.map fn self
  | call_mapErr fn self => Result.mapErr fn self
  | call_mapOr defaultValue fn self => Result.mapOr defaultValue fn self
  | call_mapOrElse fnWhenFailure fnWhenSuccess self =>
      Result.mapOrElse fnWhenFailure fnWhenSuccess self
  | call_ok self => Result.ok self
  | call_or other self => Result.or other self
  | call_orElse fn self => Result.orElse fn self
  | call_transpose self => Result.transpose self
  | call_unwrap self => Result.unwrap self
  | call_unwrapErr self => Result.unwrapErr self
  | call_unwrapOr defaultValue self => Result.unwrapOr defaultValue self
  | call_unwrapOrElse callback self => Result.unwrapOrElse callback self
  end.

(** The containers an application is given: [self], or the arguments of
    [combine]. *)
Definition inputs (c : call) : list val :=
  match c with
  | call_Err _ | call_Ok _ => []
  | call_combine results => results
  | call_and _ self | call_andThen _ self | call_err self
  | call_expect _ self | call_expectErr _ self | call_flatten self
  | call_inspect _ self | call_inspectErr _ self | call_intoErr self
  | call_intoOk self | call_isErr self | call_isErrAnd _ self
  | call_isOk self | call_isOkAnd _ self | call_map _ self
  | call_mapErr _ self | call_mapOr _ _ self | call_mapOrElse _ _ self
  | call_ok self | call_or _ self | call_orElse _ self
  | call_transpose self | call_unwrap self | call_unwrapErr self
  | call_unwrapOr _ self | call_unwrapOrElse _ self => [self]
  end.

(** The callbacks an application is given. *)
Definition callbacks (c : call) : list callback :=
  match c with
  | call_andThen fn _ | call_inspect fn _ | call_inspectErr fn _
  | call_isErrAnd fn _ | call_isOkAnd fn _ | call_map fn _
  | call_mapErr fn _ | call_mapOr _ fn _ | call_orElse fn _
  | call_unwrapOrElse fn _ => [fn]
  | call_mapOrElse fnWhenFailure fnWhenSuccess _ =>
      [fnWhenFailure; fnWhenSuccess]
  | _ => []
  end.

(** The two operations whose [self] holds a container: [flatten] takes a
    [Result<Result<T, E>, E>] and [transpose] a [Result<Option<T>, E>]. *)
Definition nested_typed (h : heap) (c : call) : Prop :=
  match c with
  | call_flatten self =>
      forall inner, as_result h self = Some (Success inner) ->
                    is_Some (as_result h inner)
  | call_transpose self =>
      forall inner, as_result h self = Some (Success inner) ->
                    is_Some (as_option h inner)
  | _ => True
  end.

(** An application at the types of its signature, with callbacks that
    complete. *)
Definition typed (h : heap) (c : call) : Prop :=
  Forall (fun v => is_Some (as_result h v)) (inputs c)
  /\ Forall total (callbacks c)
  /\ nested_typed h c.

(** One of the four extractors, applied to the variant that does not hold
    what it extracts. *)
Definition extractor_on_wrong_variant (h : heap) (c : call) : bool :=
  match c with
  | call_unwrap self | call_expect _ self =>
      match as_result h self with Some (Failure _) => true | _ => false end
  | call_unwrapErr self | call_expectErr _ self =>
      match as_result h self with Some (Success _) => true | _ => false end
  | _ => false
  end.

(** ** A container in a container

    [Result<Option<T>, E>], what [Result.transpose] takes, and
    [Option<Result<T, E>>], what [Option.transpose] takes. *)

Inductive result_of_option_shape : Type :=
| SuccessPresent (value : val)
| SuccessAbsent
| JustFailure (error : val).

Inductive option_of_result_shape : Type :=
| PresentSuccess (value : val)
| JustAbsent
| PresentFailure (error : val).

Definition as_result_of_option (h : heap) (v : val)
    : option result_of_option_shape :=
  match as_result h v with
  | Some (Success inner) =>
      match as_option h inner with
      | Some (Present value) => Some (SuccessPresent value)
      | Some Absent => Some SuccessAbsent
      | None => None
      end
  | Some (Failure error) => Some (JustFailure error)
  | None => None
  end.

Definition as_option_of_result (h : heap) (v : val)
    : option option_of_result_shape :=
  match as_option h v with
  | Some (Present inner) =>
      match as_result h inner with
      | Some (Success value) => Some (PresentSuccess value)
      | Some (Failure error) => Some (PresentFailure error)
      | None => None
      end
  | Some Absent => Some JustAbsent
  | None => None
  end.

(** The pairs the spec puts face to face:
    [Success(Present(v))] and [Present(Success(v))],
    [Success(Absent)] and [Absent], [Failure(e)] and [Present(Failure(e))]. *)
Definition facing (s : result_of_option_shape) : option_of_result_shape :=
  match s with
  | SuccessPresent v => PresentSuccess v
  | SuccessAbsent => JustAbsent
  | JustFailure e => PresentFailure e
  end.

(** ** The objects of the tests

    A store holding [Option.None] and the containers that [Result.test.ts]
    and [Option.test.ts] build, each at the reference noted beside it, and
    the callbacks of the tests that take any argument. *)

Definition test_store : heap :=
  [ Option.None_object                                        (* 0 *)
  ; OObject [("_tag", VStr "Ok"); ("value", VNum 5)]           (* 1 *)
  ; OObject [("_tag", VStr "Err"); ("error", VStr "Oh no")]    (* 2 *)
  ; OObject [("__tag", VStr "Some"); ("value", VNum 5)]        (* 3 *)
  ; OObject [("_tag", VStr "Ok"); ("value", VRef 3)]           (* 4 *)
  ; OObject [("_tag", VStr "Ok"); ("value", VRef 0)]           (* 5 *)
  ; OObject [("__tag", VStr "Some"); ("value", VRef 1)]        (* 6 *)
  ; OObject [("__tag", VStr "Some"); ("value", VRef 2)]        (* 7 *)
  ; OObject [("_tag", VStr "Ok"); ("value", VStr "Hello, World!")] (* 8 *)
  ; OObject [("_tag", VStr "Err"); ("error", VStr "b")]        (* 9 *)
  ; OObject [("_tag", VStr "Ok"); ("value", VUndefined)]       (* 10 *)
  ; OObject [("_tag", VStr "Err"); ("error", VUndefined)]      (* 11 *)
  ; OObject [("_tag", VStr "Ok"); ("value", VRef 1)]           (* 12 *)
  ; OObject [("me", VRef 13)]                                  (* 13 *)
  ; OObject [("_tag", VStr "Err"); ("error", VRef 13)]         (* 14 *)
  ; OArray []                                                  (* 15 *)
  ].

(** [() => 0]. *)
Definition zero : callback := fun _ => ret (VNum 0).

(** [vi.fn()], with [calls] the array of the arguments it has been called
    with. *)
Definition vi_fn (calls : val) : callback :=
  fun v =>
    do* push calls v in
    ret VUndefined.

(** [(x) => Result.Ok(x)]. *)
Definition wrap : callback := fun x => Result.Ok x.

(** ** The exported operations of [Option.ts]

    [export const Option = { None, Some, and, ... }]: every entry of the
    table, with the arguments of one application of it. *)

Inductive ocall : Type :=
| ocall_None
| ocall_Some (value : val)
| ocall_and (secondOption self : val)
| ocall_andThen (callback : callback) (self : val)
| ocall_expect (message : string) (self : val)
| ocall_filter (predicate : callback) (self : val)
| ocall_flatten (self : val)
| ocall_fromNullable (value : val)
| ocall_inspect (fn : callback) (self : val)
| ocall_isNone (self : val)
| ocall_isSome (self : val)
| ocall_map (fn : callback) (self : val)
| ocall_mapOr (defaultValue : val) (fn : callback) (self : val)
| ocall_mapOrElse (cb : M val) (fn : callback) (self : val)
| ocall_match (fns : Option.match_fns) (self : val)
| ocall_okOr (error : val) (self : val)
| ocall_okOrElse (fn : M val) (self : val)
| ocall_or (defaultOption self : val)
| ocall_orElse (fn : M val) (self : val)
| ocall_transpose (self : val)
| ocall_unwrap (self : val)
| ocall_unwrapOr (defaultValue : val) (self : val)
| ocall_unwrapOrElse (fn : M val) (self : val)
| ocall_unzip (self : val)
| ocall_zip (other self : val)
| ocall_zipWith (other : val) (fn : val -> val -> M val) (self : val).

Definition orun (c : ocall) : M val :=
  match c with
  | ocall_None => ret Option.None
  | ocall_Some value => Option.Some value
  | ocall_and secondOption self => Option.and secondOption self
  | ocall_andThen callback self => Option.andThen callback self
  | ocall_expect message self => Option.expect message self
  | ocall_filter predicate self => Option.filter predicate self
  | ocall_flatten self => Option.flatten self
  | ocall_fromNullable value => Option.fromNullable value
  | ocall_inspect fn self => Option.inspect fn self
  | ocall_isNone self => let* b := Option.isNone self in ret (VBool b)
  | ocall_isSome self => let* b := Option.isSome self in ret (VBool b)
  | ocall_map fn self => Option.map fn self
  | ocall_mapOr defaultValue fn self => Option.mapOr defaultValue fn self
  | ocall_mapOrElse cb fn self => Option.mapOrElse cb fn self
  | ocall_match fns self => Option.match_ fns self
  | ocall_okOr error self => OptionBridge.okOr error self
  | ocall_okOrElse fn self => OptionBridge.okOrElse fn self
  | ocall_or defaultOption self => Option.or defaultOption self
  | ocall_orElse fn self => Option.orElse fn self
  | ocall_transpose self => OptionBridge.transpose self
  | ocall_unwrap self => Option.unwrap self
  | ocall_unwrapOr defaultValue self => Option.unwrapOr defaultValue self
  | ocall_unwrapOrElse fn self => Option.unwrapOrElse fn self
  | ocall_unzip self => Option.unzip self
  | ocall_zip other self => Option.zip other self
  | ocall_zipWith other fn self => Option.zipWith other fn self
  end.

(** The [Option]s an application is given: [self], and the [other] of
    [zip] and [zipWith]. *)
Definition oinputs (c : ocall) : list val :=
  match c with
  | ocall_None | ocall_Some _ | ocall_fromNullable _ => []
  | ocall_zip other self | ocall_zipWith other _ self => [self; other]
  | ocall_and _ self | ocall_andThen _ self | ocall_expect _ self
  | ocall_filter _ self | ocall_flatten self | ocall_inspect _ self
  | ocall_isNone self | ocall_isSome self | ocall_map _ self
  | ocall_mapOr _ _ self | ocall_mapOrElse _ _ self | ocall_match _ self
  | ocall_okOr _ self | ocall_okOrElse _ self | ocall_or _ self
  | ocall_orElse _ self | ocall_transpose self | ocall_unwrap self
  | ocall_unwrapOr _ self | ocall_unwrapOrElse _ self
  | ocall_unzip self => [self]
  end.

(** A callback without argument that completes normally. *)
Definition completes (fn : M val) : Prop :=
  forall h : heap, exists u h', fn h = (Return u, h').

(** The callbacks of an application complete normally. *)
Definition ocallbacks_complete (c : ocall) : Prop :=
  match c with
  | ocall_andThen fn _ | ocall_filter fn _ | ocall_inspect fn _
  | ocall_map fn _ | ocall_mapOr _ fn _ => total fn
  | ocall_mapOrElse cb fn _ => completes cb /\ total fn
  | ocall_match fns _ => total (Option.fns_Some fns)
  | ocall_okOrElse fn _ | ocall_orElse fn _ | ocall_unwrapOrElse fn _ =>
      completes fn
  | ocall_zipWith _ fn _ =>
      forall (a b : val) (h : heap), exists u h', fn a b h = (Return u, h')
  | _ => True
  end.

(** [transpose] takes an [Option<Result<T, E>>] and [unzip] an
    [Option<[T, U]>], a [Some] of an array. *)
Definition onested_typed (h : heap) (c : ocall) : Prop :=
  match c with
  | ocall_transpose self =>
      forall inner, as_option h self = Some (Present inner) ->
                    is_Some (as_result h inner)
  | ocall_unzip self =>
      forall inner, as_option h self = Some (Present inner) ->
                    exists l items,
                      inner = VRef l /\ h !! l = Some (OArray items)
  | _ => True
  end.

Definition otyped (h : heap) (c : ocall) : Prop :=
  Forall (fun v => is_Some (as_option h v)) (oinputs c)
  /\ ocallbacks_complete c
  /\ onested_typed h c.

(** [unwrap] or [expect], applied to a [None]. *)
Definition extractor_on_None (h : heap) (c : ocall) : bool :=
  match c with
  | ocall_unwrap self | ocall_expect _ self =>
      match as_option h self with Some Absent => true | _ => false end
  | _ => false
  end.

(** ** Computations that leave the objects of the store alone *)

(** [m] adds objects to the store and changes none of those it finds. *)
Definition only_adds {A} (m : M A) : Prop :=
  forall (h : heap) (c : completion A) (h' : heap),
    m h = (c, h') -> h `prefix_of` h'.

Definition ocallbacks_only_add (c : ocall) : Prop :=
  match c with
  | ocall_andThen fn _ | ocall_filter fn _ | ocall_inspect fn _
  | ocall_map fn _ | ocall_mapOr _ fn _ => forall v, only_adds (fn v)
  | ocall_mapOrElse cb fn _ => only_adds cb /\ forall v, only_adds (fn v)
  | ocall_match fns _ => forall v, only_adds (Option.fns_Some fns v)
  | ocall_okOrElse fn _ | ocall_orElse fn _ | ocall_unwrapOrElse fn _ =>
      only_adds fn
  | ocall_zipWith _ fn _ => forall a b, only_adds (fn a b)
  | _ => True
  end.

(** ** More objects of the tests

    [Option.test.ts]: the pair [[1, "hi"]], [Some] of it, [Some("hi")],
    [Some(Some(5))] and [Some(1)], after the objects of [test_store]. *)
Definition option_store : heap :=
  test_store ++
  [ OArray [VNum 1; VStr "hi"]                                 (* 16 *)
  ; OObject [("__tag", VStr "Some"); ("value", VRef 16)]       (* 17 *)
  ; OObject [("__tag", VStr "Some"); ("value", VStr "hi")]     (* 18 *)
  ; OObject [("__tag", VStr "Some"); ("value", VRef 3)]        (* 19 *)
  ; OObject [("__tag", VStr "Some"); ("value", VNum 1)]        (* 20 *)
  ].

(** [(x) => x === 5]. *)
Definition is_five : callback :=
  fun x => ret (VBool (strict_equals x (VNum 5))).

(** * Properties *)

(** ** Reading tags and payloads *)

Lemma strict_equals_VStr (t : val) (s : string) :
  strict_equals t (VStr s) = true <-> t = VStr s.
Proof.
  destruct t as [| |b|n|s'|l]; simpl; try (split; [discriminate | discriminate]).
  rewrite String.eqb_eq. split; congruence.
Qed.

Lemma as_result_Success_inv (h : heap) (self v : val) :
  as_result h self = Some (Success v) ->
  exists l fs, self = VRef l /\ h !! l = Some (OObject fs)
               /\ field fs "_tag" = VStr "Ok" /\ field fs "value" = v.
Proof.
  unfold as_result. destruct self as [| |b|n|s|l]; try discriminate.
  destruct (h !! l) as [[fs|items]|] eqn:Hl; try discriminate.
  destruct (strict_equals (field fs "_tag") (VStr "Ok")) eqn:Htag.
  - intros [= <-]. apply strict_equals_VStr in Htag. eauto 10.
  - destruct (strict_equals (field fs "_tag") (VStr "Err")); discriminate.
Qed.

Lemma as_result_Failure_inv (h : heap) (self e : val) :
  as_result h self = Some (Failure e) ->
  exists l fs, self = VRef l /\ h !! l = Some (OObject fs)
               /\ field fs "_tag" = VStr "Err" /\ field fs "error" = e.
Proof.
  unfold as_result. destruct self as [| |b|n|s|l]; try discriminate.
  destruct (h !! l) as [[fs|items]|] eqn:Hl; try discriminate.
  destruct (strict_equals (field fs "_tag") (VStr "Ok")) eqn:Hok; [discriminate|].
  destruct (strict_equals (field fs "_tag") (VStr "Err")) eqn:Htag; [|discriminate].
  intros [= <-]. apply strict_equals_VStr in Htag. eauto 10.
Qed.

Lemma as_option_Present_inv (h : heap) (self v : val) :
  as_option h self = Some (Present v) ->
  exists l fs, self = VRef l /\ h !! l = Some (OObject fs)
               /\ field fs "__tag" = VStr "Some" /\ field fs "value" = v.
Proof.
  unfold as_option. destruct self as [| |b|n|s|l]; try discriminate.
  destruct (h !! l) as [[fs|items]|] eqn:Hl; try discriminate.
  destruct (strict_equals (field fs "__tag") (VStr "Some")) eqn:Htag.
  - intros [= <-]. apply strict_equals_VStr in Htag. eauto 10.
  - destruct (strict_equals (field fs "__tag") (VStr "None")); discriminate.
Qed.

Lemma as_option_Absent_inv (h : heap) (self : val) :
  as_option h self = Some Absent ->
  exists l fs, self = VRef l /\ h !! l = Some (OObject fs)
               /\ field fs "__tag" = VStr "None".
Proof.
  unfold as_option. destruct self as [| |b|n|s|l]; try discriminate.
  destruct (h !! l) as [[fs|items]|] eqn:Hl; try discriminate.
  destruct (strict_equals (field fs "__tag") (VStr "Some")) eqn:Hsome; [discriminate|].
  destruct (strict_equals (field fs "__tag") (VStr "None")) eqn:Htag; [|discriminate].
  intros _. apply strict_equals_VStr in Htag. eauto 10.
Qed.

Section Reads.
Variables (h : heap) (self : val).

Lemma isOk_Success v :
  as_result h self = Some (Success v) -> Result.isOk self h = (Return true, h).
Proof.
  intros (l & fs & -> & Hl & Htag & _)%as_result_Success_inv.
  unfold Result.isOk, bind, get, ret. by rewrite Hl, Htag.
Qed.

Lemma isErr_Success v :
  as_result h self = Some (Success v) -> Result.isErr self h = (Return false, h).
Proof.
  intros (l & fs & -> & Hl & Htag & _)%as_result_Success_inv.
  unfold Result.isErr, bind, get, ret. by rewrite Hl, Htag.
Qed.

Lemma value_Success v :
  as_result h self = Some (Success v) -> get self "value" h = (Return v, h).
Proof.
  intros (l & fs & -> & Hl & _ & Hv)%as_result_Success_inv.
  unfold get. by rewrite Hl, Hv.
Qed.

Lemma isOk_Failure e :
  as_result h self = Some (Failure e) -> Result.isOk self h = (Return false, h).
Proof.
  intros (l & fs & -> & Hl & Htag & _)%as_result_Failure_inv.
  unfold Result.isOk, bind, get, ret. by rewrite Hl, Htag.
Qed.

Lemma isErr_Failure e :
  as_result h self = Some (Failure e) -> Result.isErr self h = (Return true, h).
Proof.
  intros (l & fs & -> & Hl & Htag & _)%as_result_Failure_inv.
  unfold Result.isErr, bind, get, ret. by rewrite Hl, Htag.
Qed.

Lemma error_Failure e :
  as_result h self = Some (Failure e) -> get self "error" h = (Return e, h).
Proof.
  intros (l & fs & -> & Hl & _ & He)%as_result_Failure_inv.
  unfold get. by rewrite Hl, He.
Qed.

Lemma isNone_Present v :
  as_option h self = Some (Present v) -> Option.isNone self h = (Return false, h).
Proof.
  intros (l & fs & -> & Hl & Htag & _)%as_option_Present_inv.
  unfold Option.isNone, bind, get, ret. by rewrite Hl, Htag.
Qed.

Lemma value_Present v :
  as_option h self = Some (Present v) -> get self "value" h = (Return v, h).
Proof.
  intros (l & fs & -> & Hl & _ & Hv)%as_option_Present_inv.
  unfold get. by rewrite Hl, Hv.
Qed.

Lemma isNone_Absent :
  as_option h self = Some Absent -> Option.isNone self h = (Return true, h).
Proof.
  intros (l & fs & -> & Hl & Htag)%as_option_Absent_inv.
  unfold Option.isNone, bind, get, ret. by rewrite Hl, Htag.
Qed.

End Reads.

(** ** New objects and the objects already there *)

Lemma lookup_new (h : heap) (o : obj) : (h ++ [o]) !! length h = Some o.
Proof. by apply list_lookup_middle. Qed.

Lemma as_result_app (h h' : heap) (v : val) :
  is_Some (as_result h v) -> as_result (h ++ h') v = as_result h v.
Proof.
  intros [s Hs]. destruct v as [| |b|n|s'|l]; try discriminate Hs.
  simpl in *. destruct (h !! l) as [o|] eqn:Hl; [|discriminate Hs].
  by rewrite (lookup_app_l_Some _ _ _ _ Hl).
Qed.

Lemma as_option_app (h h' : heap) (v : val) :
  is_Some (as_option h v) -> as_option (h ++ h') v = as_option h v.
Proof.
  intros [s Hs]. destruct v as [| |b|n|s'|l]; try discriminate Hs.
  simpl in *. destruct (h !! l) as [o|] eqn:Hl; [|discriminate Hs].
  by rewrite (lookup_app_l_Some _ _ _ _ Hl).
Qed.

Lemma Ok_new (h : heap) (v : val) :
  exists r h',
    Result.Ok v h = (Return r, h') /\ r = VRef (length h)
    /\ h' = h ++ [OObject [("_tag", VStr "Ok"); ("value", v)]]
    /\ as_result h' r = Some (Success v).
Proof.
  eexists _, _. repeat split. simpl. by rewrite lookup_new.
Qed.

Lemma Err_new (h : heap) (e : val) :
  exists r h',
    Result.Err e h = (Return r, h') /\ r = VRef (length h)
    /\ h' = h ++ [OObject [("_tag", VStr "Err"); ("error", e)]]
    /\ as_result h' r = Some (Failure e).
Proof.
  eexists _, _. repeat split. simpl. by rewrite lookup_new.
Qed.

Lemma Some_new (h : heap) (v : val) :
  exists r h',
    Option.Some v h = (Return r, h') /\ r = VRef (length h)
    /\ h' = h ++ [OObject [("__tag", VStr "Some"); ("value", v)]]
    /\ as_option h' r = Some (Present v).
Proof.
  eexists _, _. repeat split. simpl. by rewrite lookup_new.
Qed.

Lemma None_loaded (h : heap) :
  loaded h -> as_option h Option.None = Some Absent.
Proof. unfold loaded, Option.None. simpl. by intros ->. Qed.

Lemma bind_Return {A B} (m : M A) (k : A -> M B) (h h' : heap) (a : A) :
  m h = (Return a, h') -> bind m k h = k a h'.
Proof. unfold bind. by intros ->. Qed.

(** One step of a computation whose reads are settled by what the store
    holds. *)
Ltac reads :=
  repeat first
    [ erewrite isOk_Success by eassumption
    | erewrite isErr_Success by eassumption
    | erewrite isOk_Failure by eassumption
    | erewrite isErr_Failure by eassumption
    | erewrite value_Success by eassumption
    | erewrite error_Failure by eassumption
    | erewrite isNone_Present by eassumption
    | erewrite isNone_Absent by eassumption
    | erewrite value_Present by eassumption ];
  cbv beta iota.

(** ** [mapOr] and [mapOrElse] *)

(** C2. On a Failure, [mapOr(default, f)] builds [Success(default)] and
    [mapOrElse(onErr, onOk)] builds [Success(onErr(error))]; on a Success
    both build [Success] of what their second callback returns.  The
    result is a new [Ok] object in every case. *)
Theorem mapOr_mapOrElse_wrap_in_Ok (h : heap) (self : val) :
  (forall e d f,
      as_result h self = Some (Failure e) ->
      exists r h',
        Result.mapOr d f self h = (Return r, h')
        /\ as_result h' r = Some (Success d))
  /\ (forall v d f u h1,
      as_result h self = Some (Success v) ->
      f v h = (Return u, h1) ->
      exists r h',
        Result.mapOr d f self h = (Return r, h')
        /\ as_result h' r = Some (Success u))
  /\ (forall e onErr onOk u h1,
      as_result h self = Some (Failure e) ->
      onErr e h = (Return u, h1) ->
      exists r h',
        Result.mapOrElse onErr onOk self h = (Return r, h')
        /\ as_result h' r = Some (Success u))
  /\ (forall v onErr onOk u h1,
      as_result h self = Some (Success v) ->
      onOk v h = (Return u, h1) ->
      exists r h',
        Result.mapOrElse onErr onOk self h = (Return r, h')
        /\ as_result h' r = Some (Success u)).
Proof.
  repeat split.
  - intros e d f He. unfold Result.mapOr, bind. reads.
    destruct (Ok_new h d) as (r & h' & Hrun & _ & _ & Hr). eauto.
  - intros v d f u h1 Hv Hf. unfold Result.mapOr, bind. reads. rewrite Hf.
    destruct (Ok_new h1 u) as (r & h' & Hrun & _ & _ & Hr). eauto.
  - intros e onErr onOk u h1 He Hf. unfold Result.mapOrElse, bind. reads.
    rewrite Hf. destruct (Ok_new h1 u) as (r & h' & Hrun & _ & _ & Hr). eauto.
  - intros v onErr onOk u h1 Hv Hf. unfold Result.mapOrElse, bind. reads.
    rewrite Hf. destruct (Ok_new h1 u) as (r & h' & Hrun & _ & _ & Hr). eauto.
Qed.

(** ** Operations that hand back the object they were given *)

(** C6. [inspect(f)] and [inspectErr(f)] return [self], the reference they
    were given, on both variants: without calling [f] on the variant [f] is
    not for (the store is left as it was), and after [f] has completed on
    the other; [or(other)] on a Success returns [self] and leaves the store
    as it was. *)
Theorem inspect_inspectErr_or_return_self (h : heap) (self : val) :
  (forall v f u h1,
      as_result h self = Some (Success v) ->
      f v h = (Return u, h1) ->
      Result.inspect f self h = (Return self, h1))
  /\ (forall e f,
      as_result h self = Some (Failure e) ->
      Result.inspect f self h = (Return self, h))
  /\ (forall v f,
      as_result h self = Some (Success v) ->
      Result.inspectErr f self h = (Return self, h))
  /\ (forall e f u h1,
      as_result h self = Some (Failure e) ->
      f e h = (Return u, h1) ->
      Result.inspectErr f self h = (Return self, h1))
  /\ (forall v other,
      as_result h self = Some (Success v) ->
      Result.or other self h = (Return self, h)).
Proof.
  repeat split.
  - intros v f u h1 Hv Hf. unfold Result.inspect, bind. reads. by rewrite Hf.
  - intros e f He. unfold Result.inspect, bind. by reads.
  - intros v f Hv. unfold Result.inspectErr, bind. by reads.
  - intros e f u h1 He Hf. unfold Result.inspectErr, bind. reads. by rewrite Hf.
  - intros v other Hv. unfold Result.or, bind. by reads.
Qed.

(** By contrast [map] with the identity callback on a Success builds a new
    object: it reads as the same Success, and is another reference. *)
Example map_identity_builds_a_copy :
  exists r h',
    Result.map (fun v => ret v) (VRef 1) test_store = (Return r, h')
    /\ as_result h' r = as_result test_store (VRef 1)
    /\ r <> VRef 1.
Proof. eexists _, _. repeat split. discriminate. Qed.

(** ** Short circuit *)

(** C7. On a Failure, [and(other)] and [andThen(f)] return [self], the
    object they were given, and leave the store as it was, whatever [f] is:
    [f] is not called.  On [Success(v)], [and(other)] returns [other] and
    [andThen(f)] is the call [f(v)]. *)
Theorem and_andThen_short_circuit (h : heap) (self : val) :
  (forall e (f : callback) (other : val),
      as_result h self = Some (Failure e) ->
      Result.andThen f self h = (Return self, h)
      /\ Result.and other self h = (Return self, h))
  /\ (forall v (f : callback) (other : val),
      as_result h self = Some (Success v) ->
      Result.andThen f self h = f v h
      /\ Result.and other self h = (Return other, h)).
Proof.
  split.
  - intros e f other He. unfold Result.andThen, Result.and, bind. by reads.
  - intros v f other Hv. unfold Result.andThen, Result.and, bind. by reads.
Qed.

(** ** The bridges to [Option] *)

(** C10. Of [ok(r)] and [err(r)] exactly one is a [Some], and it holds the
    payload of [r]: on [Success(v)], [ok] builds [Some(v)] and [err] is
    [Option.None]; on [Failure(e)], [ok] is [Option.None] and [err] builds
    [Some(e)]. *)
Theorem ok_err_partition (h : heap) (self : val) :
  loaded h ->
  (forall v,
      as_result h self = Some (Success v) ->
      (exists r h', Result.ok self h = (Return r, h')
                    /\ as_option h' r = Some (Present v))
      /\ (Result.err self h = (Return Option.None, h)
          /\ as_option h Option.None = Some Absent))
  /\ (forall e,
      as_result h self = Some (Failure e) ->
      (Result.ok self h = (Return Option.None, h)
       /\ as_option h Option.None = Some Absent)
      /\ (exists r h', Result.err self h = (Return r, h')
                       /\ as_option h' r = Some (Present e))).
Proof.
  intros Hload. split.
  - intros v Hv. split; [|split].
    + unfold Result.ok, bind. reads.
      destruct (Some_new h v) as (r & h' & Hrun & _ & _ & Hr). eauto.
    + unfold Result.err, bind. by reads.
    + by apply None_loaded.
  - intros e He. split; [split|].
    + unfold Result.ok, bind. by reads.
    + by apply None_loaded.
    + unfold Result.err, bind. reads.
      destruct (Some_new h e) as (r & h' & Hrun & _ & _ & Hr). eauto.
Qed.

(** C8. [okOr(e)] then [ok] gives back [Some(v)] from a [Some(v)] and
    [Option.None] from a [None]; [ok] alone maps [Success(v)] to
    [Some(v)] and [Failure(e)] to [Option.None]. *)
Theorem okOr_then_ok_round_trip (h : heap) (self e : val) :
  loaded h ->
  (forall v,
      as_option h self = Some (Present v) ->
      exists r h',
        (let* r := OptionBridge.okOr e self in Result.ok r) h = (Return r, h')
        /\ as_option h' r = Some (Present v))
  /\ (as_option h self = Some Absent ->
      exists h',
        (let* r := OptionBridge.okOr e self in Result.ok r) h
        = (Return Option.None, h')
        /\ as_option h' Option.None = Some Absent)
  /\ (forall v,
      as_result h self = Some (Success v) ->
      exists r h', Result.ok self h = (Return r, h')
                   /\ as_option h' r = Some (Present v))
  /\ (forall e',
      as_result h self = Some (Failure e') ->
      Result.ok self h = (Return Option.None, h)
      /\ as_option h Option.None = Some Absent).
Proof.
  intros Hload. repeat split.
  - intros v Hv.
    destruct (Ok_new h v) as (r & h' & Hok & _ & _ & Hr).
    erewrite bind_Return
      by (unfold OptionBridge.okOr, bind; reads; exact Hok).
    unfold Result.ok, bind. reads.
    destruct (Some_new h' v) as (r' & h'' & Hrun & _ & _ & Hr'). eauto.
  - intros Hnone.
    destruct (Err_new h e) as (r & h' & Herr & _ & -> & Hr).
    erewrite bind_Return
      by (unfold OptionBridge.okOr, bind; reads; exact Herr).
    unfold Result.ok, bind. reads. eexists. split; [done|].
    rewrite as_option_app; by rewrite None_loaded.
  - intros v Hv. unfold Result.ok, bind. reads.
    destruct (Some_new h v) as (r & h' & Hrun & _ & _ & Hr). eauto.
  - unfold Result.ok, bind. by reads.
  - by apply None_loaded.
Qed.

(** ** [transpose] *)

Section Transpose.
Variable h : heap.

Lemma Result_transpose_SuccessPresent (self inner v : val) :
  as_result h self = Some (Success inner) ->
  as_option h inner = Some (Present v) ->
  exists r o h',
    Result.transpose self h = (Return o, h')
    /\ as_option h' o = Some (Present r)
    /\ as_result h' r = Some (Success v).
Proof.
  intros Hself Hinner. unfold Result.transpose, bind. reads.
  destruct (Ok_new h v) as (r & h1 & -> & _ & _ & Hr).
  destruct (Some_new h1 r) as (o & h2 & -> & _ & -> & Ho).
  exists r, o, (h1 ++ [OObject [("__tag", VStr "Some"); ("value", r)]]).
  repeat split; [done|]. rewrite as_result_app; by rewrite Hr.
Qed.

Lemma Result_transpose_SuccessAbsent (self inner : val) :
  as_result h self = Some (Success inner) ->
  as_option h inner = Some Absent ->
  Result.transpose self h = (Return inner, h).
Proof. intros Hself Hinner. unfold Result.transpose, bind. by reads. Qed.

Lemma Result_transpose_Failure (self e : val) :
  as_result h self = Some (Failure e) ->
  exists o h',
    Result.transpose self h = (Return o, h')
    /\ as_option h' o = Some (Present self)
    /\ as_result h' self = Some (Failure e).
Proof.
  intros Hself. unfold Result.transpose, bind. reads.
  destruct (Some_new h self) as (o & h' & -> & _ & -> & Ho).
  eexists _, _. repeat split; [done|]. rewrite as_result_app; by rewrite Hself.
Qed.

Lemma Option_transpose_PresentSuccess (self r v : val) :
  as_option h self = Some (Present r) ->
  as_result h r = Some (Success v) ->
  exists o res h',
    OptionBridge.transpose self h = (Return res, h')
    /\ as_result h' res = Some (Success o)
    /\ as_option h' o = Some (Present v).
Proof.
  intros Hself Hr. unfold OptionBridge.transpose, bind. reads.
  destruct (Some_new h v) as (o & h1 & -> & _ & _ & Ho).
  destruct (Ok_new h1 o) as (res & h2 & -> & _ & -> & Hres).
  exists o, res, (h1 ++ [OObject [("_tag", VStr "Ok"); ("value", o)]]).
  repeat split; [done|]. rewrite as_option_app; by rewrite Ho.
Qed.

Lemma Option_transpose_PresentFailure (self r e : val) :
  as_option h self = Some (Present r) ->
  as_result h r = Some (Failure e) ->
  OptionBridge.transpose self h = (Return r, h).
Proof. intros Hself Hr. unfold OptionBridge.transpose, bind. by reads. Qed.

Lemma Option_transpose_Absent (self : val) :
  as_option h self = Some Absent ->
  exists res h',
    OptionBridge.transpose self h = (Return res, h')
    /\ as_result h' res = Some (Success self)
    /\ as_option h' self = Some Absent.
Proof.
  intros Hself. unfold OptionBridge.transpose, bind. reads.
  destruct (Ok_new h self) as (res & h' & -> & _ & -> & Hres).
  eexists _, _. repeat split; [done|]. rewrite as_option_app; by rewrite Hself.
Qed.

End Transpose.

Lemma as_result_of_option_inv (h : heap) (self : val) (s : result_of_option_shape) :
  as_result_of_option h self = Some s ->
  match s with
  | SuccessPresent v =>
      exists inner, as_result h self = Some (Success inner)
                    /\ as_option h inner = Some (Present v)
  | SuccessAbsent =>
      exists inner, as_result h self = Some (Success inner)
                    /\ as_option h inner = Some Absent
  | JustFailure e => as_result h self = Some (Failure e)
  end.
Proof.
  unfold as_result_of_option.
  destruct (as_result h self) as [[inner|e]|]; [|by intros [= <-]|done].
  destruct (as_option h inner) as [[v|]|] eqn:Hinner; intros [= <-]; eauto.
Qed.

Lemma as_option_of_result_inv (h : heap) (self : val) (t : option_of_result_shape) :
  as_option_of_result h self = Some t ->
  match t with
  | PresentSuccess v =>
      exists inner, as_option h self = Some (Present inner)
                    /\ as_result h inner = Some (Success v)
  | PresentFailure e =>
      exists inner, as_option h self = Some (Present inner)
                    /\ as_result h inner = Some (Failure e)
  | JustAbsent => as_option h self = Some Absent
  end.
Proof.
  unfold as_option_of_result.
  destruct (as_option h self) as [[inner|]|]; [|by intros [= <-]|done].
  destruct (as_result h inner) as [[v|e]|] eqn:Hinner; intros [= <-]; eauto.
Qed.

(** C3. [Result.transpose] takes [Success(Present(v))] to
    [Present(Success(v))], [Success(Absent)] to [Absent] and [Failure(e)]
    to [Present(Failure(e))], and [Option.transpose] takes each of these
    back to a container of the shape it came from; the same holds starting
    from [Option.transpose]. *)
Theorem transpose_duality (h : heap) (self : val) :
  (forall s,
      as_result_of_option h self = Some s ->
      exists o h1,
        Result.transpose self h = (Return o, h1)
        /\ as_option_of_result h1 o = Some (facing s)
        /\ exists r h2,
             OptionBridge.transpose o h1 = (Return r, h2)
             /\ as_result_of_option h2 r = Some s)
  /\ (forall s,
      as_option_of_result h self = Some (facing s) ->
      exists r h1,
        OptionBridge.transpose self h = (Return r, h1)
        /\ as_result_of_option h1 r = Some s
        /\ exists o h2,
             Result.transpose r h1 = (Return o, h2)
             /\ as_option_of_result h2 o = Some (facing s)).
Proof.
  split.
  - intros [v| |e] Hs; pose proof (as_result_of_option_inv _ _ _ Hs) as Hinv;
      simpl in Hinv.
    + destruct Hinv as (inner & Hself & Hinner).
      destruct (Result_transpose_SuccessPresent h self inner v Hself Hinner)
        as (r & o & h1 & Hrun & Ho & Hr).
      exists o, h1. split; [done|]. split.
      { unfold as_option_of_result. by rewrite Ho, Hr. }
      destruct (Option_transpose_PresentSuccess h1 o r v Ho Hr)
        as (o' & res & h2 & Hrun' & Hres & Ho').
      exists res, h2. split; [done|].
      unfold as_result_of_option. by rewrite Hres, Ho'.
    + destruct Hinv as (inner & Hself & Hinner).
      rewrite (Result_transpose_SuccessAbsent h self inner Hself Hinner).
      exists inner, h. split; [done|]. split.
      { unfold as_option_of_result. by rewrite Hinner. }
      destruct (Option_transpose_Absent h inner Hinner)
        as (res & h2 & Hrun' & Hres & Hinner').
      exists res, h2. split; [done|].
      unfold as_result_of_option. by rewrite Hres, Hinner'.
    + destruct (Result_transpose_Failure h self e Hinv)
        as (o & h1 & Hrun & Ho & Hself).
      exists o, h1. split; [done|]. split.
      { unfold as_option_of_result. by rewrite Ho, Hself. }
      rewrite (Option_transpose_PresentFailure h1 o self e Ho Hself).
      exists self, h1. split; [done|].
      unfold as_result_of_option. by rewrite Hself.
  - intros [v| |e] Hs; pose proof (as_option_of_result_inv _ _ _ Hs) as Hinv;
      simpl in Hinv.
    + destruct Hinv as (inner & Hself & Hinner).
      destruct (Option_transpose_PresentSuccess h self inner v Hself Hinner)
        as (o & res & h1 & Hrun & Hres & Ho).
      exists res, h1. split; [done|]. split.
      { unfold as_result_of_option. by rewrite Hres, Ho. }
      destruct (Result_transpose_SuccessPresent h1 res o v Hres Ho)
        as (r' & o' & h2 & Hrun' & Ho' & Hr').
      exists o', h2. split; [done|].
      unfold as_option_of_result. by rewrite Ho', Hr'.
    + destruct (Option_transpose_Absent h self Hinv)
        as (res & h1 & Hrun & Hres & Hself).
      exists res, h1. split; [done|]. split.
      { unfold as_result_of_option. by rewrite Hres, Hself. }
      rewrite (Result_transpose_SuccessAbsent h1 res self Hres Hself).
      exists self, h1. split; [done|].
      unfold as_option_of_result. by rewrite Hself.
    + destruct Hinv as (inner & Hself & Hinner).
      rewrite (Option_transpose_PresentFailure h self inner e Hself Hinner).
      exists inner, h. split; [done|]. split.
      { unfold as_result_of_option. by rewrite Hinner. }
      destruct (Result_transpose_Failure h inner e Hinner)
        as (o & h2 & Hrun' & Ho & Hinner').
      exists o, h2. split; [done|].
      unfold as_option_of_result. by rewrite Ho, Hinner'.
Qed.

(** ** [combine] *)

Section Combine.
Variable h : heap.

(** [values], the array [combine] fills, is the object after those of [h]. *)
Lemma push_values (acc : list val) (v : val) :
  push (VRef (length h)) v (h ++ [OArray acc])
  = (Return tt, h ++ [OArray (acc ++ [v])]).
Proof.
  unfold push. rewrite lookup_new. f_equal.
  rewrite insert_app_r_alt by done. by rewrite Nat.sub_diag.
Qed.

Lemma combine_step (result v : val) (rest acc : list val) :
  as_result h result = Some (Success v) ->
  Result.combine_loop (VRef (length h)) (result :: rest) (h ++ [OArray acc])
  = Result.combine_loop (VRef (length h)) rest (h ++ [OArray (acc ++ [v])]).
Proof.
  intros Hv.
  assert (as_result (h ++ [OArray acc]) result = Some (Success v)) as Hv'
    by (rewrite as_result_app; by rewrite Hv).
  simpl. unfold bind. reads. by rewrite push_values.
Qed.

Lemma combine_loop_all_Success (results vs acc : list val) :
  Forall2 (fun r v => as_result h r = Some (Success v)) results vs ->
  Result.combine_loop (VRef (length h)) results (h ++ [OArray acc])
  = (Return None, h ++ [OArray (acc ++ vs)]).
Proof.
  intros Hall. revert acc.
  induction Hall as [|result v rest vs' Hv _ IH]; intros acc.
  - by rewrite app_nil_r.
  - rewrite (combine_step _ _ _ _ Hv), IH. by rewrite <- app_assoc.
Qed.

Lemma combine_loop_first_Failure (before after vs acc : list val) (result e : val) :
  Forall2 (fun r v => as_result h r = Some (Success v)) before vs ->
  as_result h result = Some (Failure e) ->
  Result.combine_loop (VRef (length h)) (before ++ result :: after)
    (h ++ [OArray acc])
  = (Return (Some result), h ++ [OArray (acc ++ vs)]).
Proof.
  intros Hall He. revert acc.
  induction Hall as [|r v rest vs' Hv _ IH]; intros acc.
  - assert (as_result (h ++ [OArray acc]) result = Some (Failure e)) as He'
      by (rewrite as_result_app; by rewrite He).
    simpl. unfold bind. reads. by rewrite app_nil_r.
  - rewrite <- app_comm_cons, (combine_step _ _ _ _ Hv), IH.
    by rewrite <- app_assoc.
Qed.

(** Every list of [Result]s is all Success, or has a first Failure. *)
Lemma all_Success_or_first_Failure (results : list val) :
  Forall (fun r => is_Some (as_result h r)) results ->
  (exists vs, Forall2 (fun r v => as_result h r = Some (Success v)) results vs)
  \/ (exists before result after vs e,
         results = before ++ result :: after
         /\ Forall2 (fun r v => as_result h r = Some (Success v)) before vs
         /\ as_result h result = Some (Failure e)).
Proof.
  induction 1 as [|r rest [[v|e] Hr] _ IH].
  - left. exists []. constructor.
  - destruct IH as [(vs & Hvs)|(before & result & after & vs & e & -> & Hvs & He)].
    + left. exists (v :: vs). by constructor.
    + right. exists (r :: before), result, after, (v :: vs), e.
      split; [done|]. split; [by constructor|done].
  - right. exists [], r, rest, [], e. split; [done|]. split; [constructor|done].
Qed.

End Combine.

(** C1. [combine] applied to [Result]s that are all Success returns a
    new [Ok] object whose value is a new array of their values, in the
    order of the arguments.  Applied to arguments of which one is a
    Failure and those before it are Success, it returns that first
    Failure, the object itself, whatever comes after it.  Every list of
    [Result]s is in one of the two cases. *)
Theorem combine_all_values_or_first_Failure (h : heap) (results : list val) :
  (forall vs,
      Forall2 (fun r v => as_result h r = Some (Success v)) results vs ->
      exists r a h',
        Result.combine results h = (Return r, h')
        /\ as_result h' r = Some (Success a)
        /\ a = VRef (length h) /\ h' !! length h = Some (OArray vs))
  /\ (forall before result after vs e,
      results = before ++ result :: after ->
      Forall2 (fun r v => as_result h r = Some (Success v)) before vs ->
      as_result h result = Some (Failure e) ->
      exists h',
        Result.combine results h = (Return result, h')
        /\ as_result h' result = Some (Failure e))
  /\ (Forall (fun r => is_Some (as_result h r)) results ->
      (exists vs,
          Forall2 (fun r v => as_result h r = Some (Success v)) results vs)
      \/ (exists before result after vs e,
             results = before ++ result :: after
             /\ Forall2 (fun r v => as_result h r = Some (Success v)) before vs
             /\ as_result h result = Some (Failure e))).
Proof.
  split; [|split].
  - intros vs Hall. unfold Result.combine. unfold bind at 1, alloc at 1.
    unfold bind. rewrite (combine_loop_all_Success h results vs [] Hall).
    destruct (Ok_new (h ++ [OArray vs]) (VRef (length h)))
      as (r & h' & Hrun & _ & -> & Hr). simpl app at 1 in Hrun.
    exists r, (VRef (length h)), ((h ++ [OArray vs]) ++
      [OObject [("_tag", VStr "Ok"); ("value", VRef (length h))]]).
    split; [exact Hrun|]. split; [exact Hr|]. split; [done|].
    apply lookup_app_l_Some, lookup_new.
  - intros before result after vs e -> Hall He.
    unfold Result.combine. unfold bind at 1, alloc at 1. unfold bind.
    rewrite (combine_loop_first_Failure h before after vs [] result e Hall He).
    eexists. split; [done|]. rewrite as_result_app; by rewrite He.
  - apply all_Success_or_first_Failure.
Qed.

(** C9. [combine()] returns a new [Ok] object whose value is a new, empty
    array. *)
Theorem combine_of_nothing (h : heap) :
  exists r a h',
    Result.combine [] h = (Return r, h')
    /\ as_result h' r = Some (Success a)
    /\ h' !! length h = Some (OArray []) /\ a = VRef (length h).
Proof.
  destruct (Ok_new (h ++ [OArray []]) (VRef (length h)))
    as (r & h' & Hrun & _ & -> & Hr).
  exists r, (VRef (length h)), ((h ++ [OArray []]) ++
    [OObject [("_tag", VStr "Ok"); ("value", VRef (length h))]]).
  split; [exact Hrun|]. split; [exact Hr|]. split; [|done].
  apply lookup_app_l_Some, lookup_new.
Qed.

(** ** The extractors *)

(** What the four extractors do on the variant they are not for. *)
Lemma unwrap_Failure_raises (h : heap) (self e : val) (message : string) :
  as_result h self = Some (Failure e) ->
  raises (Result.unwrap self h) = true
  /\ raises (Result.expect message self h) = true.
Proof.
  intros He. unfold Result.unwrap, Result.expect, bind. reads.
  unfold JSON_stringify. by destruct (SerializeJSONProperty _ _ _ _).
Qed.

Lemma unwrapErr_Success_raises (h : heap) (self v : val) (message : string) :
  as_result h self = Some (Success v) ->
  raises (Result.unwrapErr self h) = true
  /\ raises (Result.expectErr message self h) = true.
Proof.
  intros Hv. unfold Result.unwrapErr, Result.expectErr, bind. reads.
  unfold JSON_stringify. by destruct (SerializeJSONProperty _ _ _ _).
Qed.

Lemma combine_returns (h : heap) (results : list val) :
  Forall (fun r => is_Some (as_result h r)) results ->
  raises (Result.combine results h) = false.
Proof.
  intros Hin. unfold Result.combine. unfold bind at 1, alloc at 1. unfold bind.
  destruct (all_Success_or_first_Failure h results Hin)
    as [(vs & Hvs)|(before & result & after & vs & e & -> & Hvs & He)].
  - by rewrite (combine_loop_all_Success h results vs [] Hvs).
  - by rewrite (combine_loop_first_Failure h before after vs [] result e Hvs He).
Qed.

Ltac call_callback :=
  match goal with
  | Hf : total ?f |- context [?f ?v ?h] =>
      let u := fresh "u" in
      let h' := fresh "h" in
      let Hcall := fresh "Hcall" in
      destruct (Hf v h) as (u & h' & Hcall); rewrite Hcall; cbv beta iota
  end.

(** C4. Of the operations of the table, applied at the types of their
    signatures with callbacks that complete, the ones that throw are
    [unwrap] and [expect] applied to a Failure and [unwrapErr] and
    [expectErr] applied to a Success; every other application completes
    normally. *)
Theorem only_extractors_on_wrong_variant_raise (h : heap) (c : call) :
  typed h c ->
  raises (run c h) = extractor_on_wrong_variant h c.
Proof.
  intros (Hin & Hcb & Hnest).
  destruct c; simpl in Hin, Hcb, Hnest; simpl run;
    simpl extractor_on_wrong_variant;
    try rewrite Forall_singleton in Hin;
    try rewrite Forall_singleton in Hcb;
    try solve [reflexivity | by apply combine_returns].
  all: try (rewrite Forall_cons, Forall_singleton in Hcb;
            destruct Hcb as [Hcb1 Hcb2]).
  all: destruct Hin as [[v|e] Hself]; rewrite ?Hself.
  all: try solve
         [ by apply (unwrap_Failure_raises h self e "")
         | by apply (unwrap_Failure_raises h self e message)
         | by apply (unwrapErr_Success_raises h self v "")
         | by apply (unwrapErr_Success_raises h self v message) ].
  all: unfold Result.and, Result.andThen, Result.err, Result.expect,
         Result.expectErr, Result.flatten, Result.inspect, Result.inspectErr,
         Result.intoErr, Result.intoOk, Result.isErrAnd, Result.isOkAnd,
         Result.map, Result.mapErr, Result.mapOr, Result.mapOrElse, Result.ok,
         Result.or, Result.orElse, Result.transpose, Result.unwrap,
         Result.unwrapErr, Result.unwrapOr, Result.unwrapOrElse, bind;
       reads; repeat call_callback; try reflexivity.
  - destruct (Hnest v Hself) as [[w|e'] Hinner]; by reads.
  - destruct (Hnest v Hself) as [[w|] Hinner]; by reads.
Qed.

(** What the four extractors throw, whatever [JSON.stringify] makes of the
    payload.  Where it gives [o], a text or [undefined], [unwrap] and
    [unwrapErr] throw [new Error(o)] and [expect(message)] and
    [expectErr(message)] an [Error] whose message is [message], a colon, a
    space and [o] as a template writes it; where it throws, they throw the
    same. *)
Lemma extractors_throw_what_JSON_stringify_gives
    (h : heap) (self : val) (message : string) :
  (forall e,
      as_result h self = Some (Failure e) ->
      match JSON_stringify e h with
      | (Return o, _) =>
          Result.unwrap self h = (Throw (new_Error o), h)
          /\ Result.expect message self h
             = (Throw (Error (message +:+ ": " +:+ template o)), h)
      | (Throw x, _) =>
          Result.unwrap self h = (Throw x, h)
          /\ Result.expect message self h = (Throw x, h)
      end)
  /\ (forall v,
      as_result h self = Some (Success v) ->
      match JSON_stringify v h with
      | (Return o, _) =>
          Result.unwrapErr self h = (Throw (new_Error o), h)
          /\ Result.expectErr message self h
             = (Throw (Error (message +:+ ": " +:+ template o)), h)
      | (Throw x, _) =>
          Result.unwrapErr self h = (Throw x, h)
          /\ Result.expectErr message self h = (Throw x, h)
      end).
Proof.
  split; intros payload Hself;
    unfold Result.unwrap, Result.unwrapErr, Result.expect, Result.expectErr,
      bind; reads;
    unfold JSON_stringify; by destruct (SerializeJSONProperty _ _ _ _).
Qed.

(** C5. The code does not do what C5 says on a payload that is
    [undefined]: [unwrap] on [Failure(undefined)] and [unwrapErr] on
    [Success(undefined)] throw an [Error] whose message is empty, so it
    holds no rendering of the payload, while [expect(message)] and
    [expectErr(message)] on the same containers throw [message], a colon, a
    space and the word [undefined]. *)
Theorem extractors_on_undefined_payload
    (h : heap) (self : val) (message : string) :
  (as_result h self = Some (Failure VUndefined) ->
   Result.unwrap self h = (Throw (Error ""), h)
   /\ Result.expect message self h
      = (Throw (Error (message +:+ ": undefined")), h))
  /\ (as_result h self = Some (Success VUndefined) ->
      Result.unwrapErr self h = (Throw (Error ""), h)
      /\ Result.expectErr message self h
         = (Throw (Error (message +:+ ": undefined")), h)).
Proof.
  split; intros Hself;
    unfold Result.unwrap, Result.unwrapErr, Result.expect, Result.expectErr,
      bind; by reads.
Qed.

(** [Result.Err(undefined)] and [Result.Ok(undefined)], with the message of
    the tests. *)
Lemma extractors_on_undefined_payload_witness :
  (Result.unwrap (VRef 11) test_store = (Throw (Error ""), test_store)
   /\ Result.expect "Testing expect" (VRef 11) test_store
      = (Throw (Error ("Testing expect" +:+ ": undefined")), test_store))
  /\ (Result.unwrapErr (VRef 10) test_store = (Throw (Error ""), test_store)
      /\ Result.expectErr "Testing expectErr" (VRef 10) test_store
         = (Throw (Error ("Testing expectErr" +:+ ": undefined")), test_store)).
Proof.
  split.
  - apply (proj1 (extractors_on_undefined_payload test_store (VRef 11)
                    "Testing expect")).
    reflexivity.
  - apply (proj2 (extractors_on_undefined_payload test_store (VRef 10)
                    "Testing expectErr")).
    reflexivity.
Defined.

(** [expect] on the same payload spells the word out. *)
Example expect_of_undefined_payload :
  Result.expect "msg" (VRef 11) test_store
  = (Throw (Error "msg: undefined"), test_store).
Proof. reflexivity. Qed.

(** A payload that refers to itself cannot be rendered at all:
    [JSON.stringify] throws its own [TypeError]. *)
Example unwrap_of_cyclic_payload :
  as_result test_store (VRef 14) = Some (Failure (VRef 13))
  /\ Result.unwrap (VRef 14) test_store = (Throw TypeError, test_store).
Proof. split; reflexivity. Qed.

(** The messages [Result.test.ts] expects. *)
Example expect_test :
  Result.expect "Testing expect" (VRef 2) test_store
  = (Throw (Error ("Testing expect: " +:+ dquote +:+ "Oh no" +:+ dquote)),
     test_store).
Proof. reflexivity. Qed.

Example expectErr_test :
  Result.expectErr "Testing expectErr" (VRef 1) test_store
  = (Throw (Error "Testing expectErr: 5"), test_store).
Proof. reflexivity. Qed.

Example unwrapErr_test :
  Result.unwrapErr (VRef 1) test_store = (Throw (Error "5"), test_store).
Proof. reflexivity. Qed.

(** Numbers as [JSON.stringify] writes them: digits up to [2 ^ 53], the
    shortest digits that denote the double beyond, and the exponent form
    from [10 ^ 21]. *)
Example SerializeJSONNumber_tests :
  SerializeJSONNumber 93784005 = "93784005"
  /\ SerializeJSONNumber (-12) = "-12"
  /\ SerializeJSONNumber (2 ^ 53) = "9007199254740992"
  /\ SerializeJSONNumber (2 ^ 53 + 1) = "9007199254740992"
  /\ SerializeJSONNumber (2 ^ 64) = "18446744073709552000"
  /\ SerializeJSONNumber (10 ^ 20) = "100000000000000000000"
  /\ SerializeJSONNumber (10 ^ 21) = "1e+21"
  /\ SerializeJSONNumber (2 ^ 70) = "1.1805916207174113e+21"
  /\ SerializeJSONNumber (- 10 ^ 23) = "-1e+23"
  /\ SerializeJSONNumber ((2 ^ 53 - 1) * 2 ^ 971) = "1.7976931348623157e+308"
  /\ SerializeJSONNumber (2 ^ 1024) = "null".
Proof. repeat split; vm_compute; reflexivity. Qed.

(** ** The theorems at the objects of the tests *)

(** [combine(Ok(5), Ok("Hello, World!"))] and
    [combine(Ok(5), Err("Oh no"), Err("b"))]. *)
Lemma combine_all_values_or_first_Failure_witness :
  (exists r a h',
      Result.combine [VRef 1; VRef 8] test_store = (Return r, h')
      /\ as_result h' r = Some (Success a)
      /\ a = VRef (length test_store)
      /\ h' !! length test_store = Some (OArray [VNum 5; VStr "Hello, World!"]))
  /\ (exists h',
      Result.combine [VRef 1; VRef 2; VRef 9] test_store = (Return (VRef 2), h')
      /\ as_result h' (VRef 2) = Some (Failure (VStr "Oh no")))
  /\ ((exists vs,
         Forall2 (fun r v => as_result test_store r = Some (Success v))
           [VRef 1; VRef 2; VRef 9] vs)
      \/ (exists before result after vs e,
             [VRef 1; VRef 2; VRef 9] = before ++ result :: after
             /\ Forall2 (fun r v => as_result test_store r = Some (Success v))
                  before vs
             /\ as_result test_store result = Some (Failure e))).
Proof.
  split; [|split].
  - apply (proj1 (combine_all_values_or_first_Failure test_store
                    [VRef 1; VRef 8])).
    repeat constructor.
  - apply (proj1 (proj2 (combine_all_values_or_first_Failure test_store
                           [VRef 1; VRef 2; VRef 9]))
             [VRef 1] (VRef 2) [VRef 9] [VNum 5] (VStr "Oh no")).
    + reflexivity.
    + repeat constructor.
    + reflexivity.
  - apply (proj2 (proj2 (combine_all_values_or_first_Failure test_store
                           [VRef 1; VRef 2; VRef 9]))).
    repeat (constructor; [by eexists|]). constructor.
Defined.

(** [mapOr] and [mapOrElse] on [Err("Oh no")] and on [Ok(5)]. *)
Lemma mapOr_mapOrElse_wrap_in_Ok_witness :
  (exists r h',
      Result.mapOr (VNum 7) zero (VRef 2) test_store = (Return r, h')
      /\ as_result h' r = Some (Success (VNum 7)))
  /\ (exists r h',
      Result.mapOr (VNum 7) zero (VRef 1) test_store = (Return r, h')
      /\ as_result h' r = Some (Success (VNum 0)))
  /\ (exists r h',
      Result.mapOrElse zero wrap (VRef 2) test_store = (Return r, h')
      /\ as_result h' r = Some (Success (VNum 0)))
  /\ (exists r h',
      Result.mapOrElse wrap zero (VRef 1) test_store = (Return r, h')
      /\ as_result h' r = Some (Success (VNum 0))).
Proof.
  pose proof (mapOr_mapOrElse_wrap_in_Ok test_store (VRef 2)) as (H1 & _ & H3 & _).
  pose proof (mapOr_mapOrElse_wrap_in_Ok test_store (VRef 1)) as (_ & H2 & _ & H4).
  split; [|split; [|split]].
  - apply (H1 (VStr "Oh no")). reflexivity.
  - apply (H2 (VNum 5) (VNum 7) zero (VNum 0) test_store); reflexivity.
  - apply (H3 (VStr "Oh no") zero wrap (VNum 0) test_store); reflexivity.
  - apply (H4 (VNum 5) wrap zero (VNum 0) test_store); reflexivity.
Defined.

(** From [Ok(Some(5))] and back, from [Some(Err("Oh no"))] and back. *)
Lemma transpose_duality_witness :
  (exists o h1,
      Result.transpose (VRef 4) test_store = (Return o, h1)
      /\ as_option_of_result h1 o = Some (PresentSuccess (VNum 5))
      /\ exists r h2,
           OptionBridge.transpose o h1 = (Return r, h2)
           /\ as_result_of_option h2 r = Some (SuccessPresent (VNum 5)))
  /\ (exists r h1,
      OptionBridge.transpose (VRef 7) test_store = (Return r, h1)
      /\ as_result_of_option h1 r = Some (JustFailure (VStr "Oh no"))
      /\ exists o h2,
           Result.transpose r h1 = (Return o, h2)
           /\ as_option_of_result h2 o = Some (PresentFailure (VStr "Oh no"))).
Proof.
  split.
  - apply (proj1 (transpose_duality test_store (VRef 4)) (SuccessPresent (VNum 5))).
    reflexivity.
  - apply (proj2 (transpose_duality test_store (VRef 7)) (JustFailure (VStr "Oh no"))).
    reflexivity.
Defined.

(** Seven applications: two of them are an extractor on the other variant. *)
Lemma only_extractors_on_wrong_variant_raise_witness :
  raises (run (call_unwrap (VRef 2)) test_store) = true
  /\ raises (run (call_unwrap (VRef 1)) test_store) = false
  /\ raises (run (call_expectErr "Testing expectErr" (VRef 1)) test_store) = true
  /\ raises (run (call_mapOrElse zero wrap (VRef 2)) test_store) = false
  /\ raises (run (call_flatten (VRef 12)) test_store) = false
  /\ raises (run (call_transpose (VRef 5)) test_store) = false
  /\ raises (run (call_combine [VRef 1; VRef 2; VRef 9]) test_store) = false.
Proof.
  assert (total zero) as Hzero by (intros v h; by eexists _, _).
  assert (total wrap) as Hwrap by (intros v h; by eexists _, _).
  split; [|split; [|split; [|split; [|split; [|split]]]]].
  - apply (only_extractors_on_wrong_variant_raise test_store
             (call_unwrap (VRef 2))).
    split; [|split]; simpl; [|constructor|exact I].
    constructor; [|constructor]. by eexists.
  - apply (only_extractors_on_wrong_variant_raise test_store
             (call_unwrap (VRef 1))).
    split; [|split]; simpl; [|constructor|exact I].
    constructor; [|constructor]. by eexists.
  - apply (only_extractors_on_wrong_variant_raise test_store
             (call_expectErr "Testing expectErr" (VRef 1))).
    split; [|split]; simpl; [|constructor|exact I].
    constructor; [|constructor]. by eexists.
  - apply (only_extractors_on_wrong_variant_raise test_store
             (call_mapOrElse zero wrap (VRef 2))).
    split; [|split]; simpl; [| |exact I].
    + constructor; [|constructor]. by eexists.
    + constructor; [exact Hzero|]. constructor; [exact Hwrap|constructor].
  - apply (only_extractors_on_wrong_variant_raise test_store
             (call_flatten (VRef 12))).
    split; [|split]; simpl; [|constructor|].
    + constructor; [|constructor]. by eexists.
    + intros inner [= <-]. by eexists.
  - apply (only_extractors_on_wrong_variant_raise test_store
             (call_transpose (VRef 5))).
    split; [|split]; simpl; [|constructor|].
    + constructor; [|constructor]. by eexists.
    + intros inner [= <-]. by eexists.
  - apply (only_extractors_on_wrong_variant_raise test_store
             (call_combine [VRef 1; VRef 2; VRef 9])).
    split; [|split]; simpl; [|constructor|exact I].
    repeat (constructor; [by eexists|]). constructor.
Defined.

(** [inspect] and [inspectErr] with a [vi.fn()]: the object comes back, and
    the mock has been called once, or not at all. *)
Lemma inspect_inspectErr_or_return_self_witness :
  Result.inspect (vi_fn (VRef 15)) (VRef 1) test_store
  = (Return (VRef 1), <[15 := OArray [VNum 5]]> test_store)
  /\ Result.inspect (vi_fn (VRef 15)) (VRef 2) test_store
     = (Return (VRef 2), test_store)
  /\ Result.inspectErr (vi_fn (VRef 15)) (VRef 1) test_store
     = (Return (VRef 1), test_store)
  /\ Result.inspectErr (vi_fn (VRef 15)) (VRef 2) test_store
     = (Return (VRef 2), <[15 := OArray [VStr "Oh no"]]> test_store)
  /\ Result.or (VRef 2) (VRef 1) test_store = (Return (VRef 1), test_store).
Proof.
  pose proof (inspect_inspectErr_or_return_self test_store (VRef 1))
    as (H1 & _ & H3 & _ & H5).
  pose proof (inspect_inspectErr_or_return_self test_store (VRef 2))
    as (_ & H2 & _ & H4 & _).
  split; [|split; [|split; [|split]]].
  - apply (H1 (VNum 5) (vi_fn (VRef 15)) VUndefined); reflexivity.
  - apply (H2 (VStr "Oh no")). reflexivity.
  - apply (H3 (VNum 5)). reflexivity.
  - apply (H4 (VStr "Oh no") (vi_fn (VRef 15)) VUndefined); reflexivity.
  - apply (H5 (VNum 5)). reflexivity.
Defined.

(** On [Err("Oh no")] a callback that would throw is not called. *)
Lemma and_andThen_short_circuit_witness :
  (Result.andThen (fun _ => throw TypeError) (VRef 2) test_store
   = (Return (VRef 2), test_store)
   /\ Result.and (VRef 8) (VRef 2) test_store = (Return (VRef 2), test_store))
  /\ (Result.andThen wrap (VRef 1) test_store = wrap (VNum 5) test_store
      /\ Result.and (VRef 8) (VRef 1) test_store = (Return (VRef 8), test_store)).
Proof.
  split.
  - apply (proj1 (and_andThen_short_circuit test_store (VRef 2)) (VStr "Oh no")).
    reflexivity.
  - apply (proj2 (and_andThen_short_circuit test_store (VRef 1)) (VNum 5)).
    reflexivity.
Defined.

(** [okOr(0)] then [ok] on [Some(5)] and on [Option.None]. *)
Lemma okOr_then_ok_round_trip_witness :
  (exists r h',
      (let* r := OptionBridge.okOr (VNum 0) (VRef 3) in Result.ok r) test_store
      = (Return r, h')
      /\ as_option h' r = Some (Present (VNum 5)))
  /\ (exists h',
      (let* r := OptionBridge.okOr (VNum 0) Option.None in Result.ok r) test_store
      = (Return Option.None, h')
      /\ as_option h' Option.None = Some Absent)
  /\ (exists r h', Result.ok (VRef 1) test_store = (Return r, h')
                   /\ as_option h' r = Some (Present (VNum 5)))
  /\ (Result.ok (VRef 2) test_store = (Return Option.None, test_store)
      /\ as_option test_store Option.None = Some Absent).
Proof.
  split; [|split; [|split]].
  - apply (proj1 (okOr_then_ok_round_trip test_store (VRef 3) (VNum 0) eq_refl)).
    reflexivity.
  - apply (proj1 (proj2 (okOr_then_ok_round_trip test_store Option.None (VNum 0)
                           eq_refl))).
    reflexivity.
  - apply (proj1 (proj2 (proj2 (okOr_then_ok_round_trip test_store (VRef 1)
                                  (VNum 0) eq_refl)))).
    reflexivity.
  - apply (proj2 (proj2 (proj2 (okOr_then_ok_round_trip test_store (VRef 2)
                                  (VNum 0) eq_refl))) (VStr "Oh no")).
    reflexivity.
Defined.

(** [ok] and [err] on [Ok(5)] and on [Err("Oh no")]. *)
Lemma ok_err_partition_witness :
  ((exists r h', Result.ok (VRef 1) test_store = (Return r, h')
                 /\ as_option h' r = Some (Present (VNum 5)))
   /\ (Result.err (VRef 1) test_store = (Return Option.None, test_store)
       /\ as_option test_store Option.None = Some Absent))
  /\ ((Result.ok (VRef 2) test_store = (Return Option.None, test_store)
       /\ as_option test_store Option.None = Some Absent)
      /\ (exists r h', Result.err (VRef 2) test_store = (Return r, h')
                       /\ as_option h' r = Some (Present (VStr "Oh no")))).
Proof.
  split.
  - apply (proj1 (ok_err_partition test_store (VRef 1) eq_refl)). reflexivity.
  - apply (proj2 (ok_err_partition test_store (VRef 2) eq_refl)). reflexivity.
Defined.

(** * Further properties of [Result.ts] *)

(** ** [map] and [mapErr] *)

(** [map(f)] returns a Failure as it is, the same object, without calling
    [f], and builds a new [Ok] of what [f] returns from the value of a
    Success; [mapErr(f)] does the same with the variants exchanged. *)
Theorem map_mapErr_act_on_one_variant (h : heap) (self : val) :
  (forall e (f : callback),
      as_result h self = Some (Failure e) ->
      Result.map f self h = (Return self, h))
  /\ (forall v (f : callback) u h1,
      as_result h self = Some (Success v) ->
      f v h = (Return u, h1) ->
      exists r h',
        Result.map f self h = (Return r, h')
        /\ r = VRef (length h1) /\ as_result h' r = Some (Success u))
  /\ (forall v (f : callback),
      as_result h self = Some (Success v) ->
      Result.mapErr f self h = (Return self, h))
  /\ (forall e (f : callback) u h1,
      as_result h self = Some (Failure e) ->
      f e h = (Return u, h1) ->
      exists r h',
        Result.mapErr f self h = (Return r, h')
        /\ r = VRef (length h1) /\ as_result h' r = Some (Failure u)).
Proof.
  split; [|split; [|split]].
  - intros e f He. unfold Result.map, bind. by reads.
  - intros v f u h1 Hv Hf. unfold Result.map, bind. reads. rewrite Hf.
    destruct (Ok_new h1 u) as (r & h' & Hrun & Hr & _ & Hview). eauto 6.
  - intros v f Hv. unfold Result.mapErr, bind. by reads.
  - intros e f u h1 He Hf. unfold Result.mapErr, bind. reads. rewrite Hf.
    destruct (Err_new h1 u) as (r & h' & Hrun & Hr & _ & Hview). eauto 6.
Qed.

(** [map] and [mapErr] on [Ok(5)] and on [Err("Oh no")]. *)
Lemma map_mapErr_act_on_one_variant_witness :
  Result.map (fun _ => throw TypeError) (VRef 2) test_store
  = (Return (VRef 2), test_store)
  /\ (exists r h',
        Result.map zero (VRef 1) test_store = (Return r, h')
        /\ r = VRef (length test_store)
        /\ as_result h' r = Some (Success (VNum 0)))
  /\ Result.mapErr (fun _ => throw TypeError) (VRef 1) test_store
     = (Return (VRef 1), test_store)
  /\ (exists r h',
        Result.mapErr zero (VRef 2) test_store = (Return r, h')
        /\ r = VRef (length test_store)
        /\ as_result h' r = Some (Failure (VNum 0))).
Proof.
  pose proof (map_mapErr_act_on_one_variant test_store (VRef 1))
    as (_ & H2 & H3 & _).
  pose proof (map_mapErr_act_on_one_variant test_store (VRef 2))
    as (H1 & _ & _ & H4).
  split; [|split; [|split]].
  - apply (H1 (VStr "Oh no")). reflexivity.
  - apply (H2 (VNum 5) zero (VNum 0) test_store); reflexivity.
  - apply (H3 (VNum 5)). reflexivity.
  - apply (H4 (VStr "Oh no") zero (VNum 0) test_store); reflexivity.
Defined.

(** ** [flatten] *)

(** [flatten] returns an outer Failure as it is, and from an outer Success
    the inner [Result], the object itself, be it a Success or a Failure;
    the store is left as it was. *)
Theorem flatten_returns_self_or_inner (h : heap) (self : val) :
  (forall e,
      as_result h self = Some (Failure e) ->
      Result.flatten self h = (Return self, h))
  /\ (forall inner,
      as_result h self = Some (Success inner) ->
      is_Some (as_result h inner) ->
      Result.flatten self h = (Return inner, h)).
Proof.
  split.
  - intros e He. unfold Result.flatten, bind. by reads.
  - intros inner Hself [[v|e] Hinner]; unfold Result.flatten, bind; by reads.
Qed.

(** [flatten] on [Err("Oh no")] and on [Ok(Ok(5))]. *)
Lemma flatten_returns_self_or_inner_witness :
  Result.flatten (VRef 2) test_store = (Return (VRef 2), test_store)
  /\ Result.flatten (VRef 12) test_store = (Return (VRef 1), test_store).
Proof.
  split.
  - apply (proj1 (flatten_returns_self_or_inner test_store (VRef 2))
             (VStr "Oh no")).
    reflexivity.
  - apply (proj2 (flatten_returns_self_or_inner test_store (VRef 12))
             (VRef 1)); [reflexivity|by eexists].
Defined.

(** [map(f)] then [flatten] returns what [andThen(f)] returns: [self] on a
    Failure, and on a Success the [Result] that [f] returns, the object
    itself.  On a Failure the two leave the store as it was; on a Success
    [map] then [flatten] leave the store [andThen] leaves with one object
    more at its end, the [Ok] that [map] builds and [flatten] opens. *)
Theorem flatten_after_map_is_andThen (h : heap) (self : val) (f : callback) :
  (forall e,
      as_result h self = Some (Failure e) ->
      (let* m := Result.map f self in Result.flatten m) h = (Return self, h)
      /\ Result.andThen f self h = (Return self, h))
  /\ (forall v r h1,
      as_result h self = Some (Success v) ->
      f v h = (Return r, h1) ->
      is_Some (as_result h1 r) ->
      (let* m := Result.map f self in Result.flatten m) h
      = (Return r, h1 ++ [OObject [("_tag", VStr "Ok"); ("value", r)]])
      /\ Result.andThen f self h = (Return r, h1)
      /\ as_result (h1 ++ [OObject [("_tag", VStr "Ok"); ("value", r)]]) r
         = as_result h1 r).
Proof.
  split.
  - intros e He.
    assert (Result.map f self h = (Return self, h)) as Hmap
      by (unfold Result.map, bind; by reads).
    rewrite (bind_Return _ _ _ _ _ Hmap).
    split; [unfold Result.flatten|unfold Result.andThen]; unfold bind; by reads.
  - intros v r h1 Hv Hf Hr.
    destruct (Ok_new h1 r) as (m & h' & Hok & _ & -> & Hm).
    assert (Result.map f self h
            = (Return m, h1 ++ [OObject [("_tag", VStr "Ok"); ("value", r)]]))
      as Hmap by (unfold Result.map, bind; reads; by rewrite Hf).
    rewrite (bind_Return _ _ _ _ _ Hmap).
    pose proof (as_result_app h1
                  [OObject [("_tag", VStr "Ok"); ("value", r)]] r Hr) as Hr'.
    split; [|split; [|exact Hr']].
    + destruct Hr as [[w|e] Hr]; rewrite Hr in Hr';
        unfold Result.flatten, bind; by reads.
    + unfold Result.andThen, bind. by reads.
Qed.

(** With [(x) => Result.Ok(x)] on [Ok(5)], and on [Err("Oh no")]. *)
Lemma flatten_after_map_is_andThen_witness :
  ((let* m := Result.map wrap (VRef 2) in Result.flatten m) test_store
   = (Return (VRef 2), test_store)
   /\ Result.andThen wrap (VRef 2) test_store = (Return (VRef 2), test_store))
  /\ ((let* m := Result.map wrap (VRef 1) in Result.flatten m) test_store
      = (Return (VRef 16),
         (wrap (VNum 5) test_store).2
         ++ [OObject [("_tag", VStr "Ok"); ("value", VRef 16)]])
      /\ Result.andThen wrap (VRef 1) test_store
         = (Return (VRef 16), (wrap (VNum 5) test_store).2)
      /\ as_result ((wrap (VNum 5) test_store).2
                    ++ [OObject [("_tag", VStr "Ok"); ("value", VRef 16)]])
           (VRef 16)
         = as_result (wrap (VNum 5) test_store).2 (VRef 16)).
Proof.
  split.
  - apply (proj1 (flatten_after_map_is_andThen test_store (VRef 2) wrap)
             (VStr "Oh no")).
    reflexivity.
  - apply (proj2 (flatten_after_map_is_andThen test_store (VRef 1) wrap)
             (VNum 5) (VRef 16) (wrap (VNum 5) test_store).2);
      [reflexivity|reflexivity|by eexists].
Defined.

(** ** Building a [Result] and opening it *)

(** What [Ok(v)] holds is what [unwrap], [expect], [intoOk] and
    [unwrapOr] give back, and what [Err(e)] holds is what [unwrapErr],
    [expectErr] and [intoErr] give back, for every value, [undefined]
    included; none of them throws. *)
Theorem extract_after_construct (h : heap) (x d : val) (message : string) :
  let ok := OObject [("_tag", VStr "Ok"); ("value", x)] in
  let err := OObject [("_tag", VStr "Err"); ("error", x)] in
  (let* r := Result.Ok x in Result.unwrap r) h = (Return x, h ++ [ok])
  /\ (let* r := Result.Ok x in Result.expect message r) h
     = (Return x, h ++ [ok])
  /\ (let* r := Result.Ok x in Result.intoOk r) h = (Return x, h ++ [ok])
  /\ (let* r := Result.Ok x in Result.unwrapOr d r) h = (Return x, h ++ [ok])
  /\ (let* r := Result.Err x in Result.unwrapErr r) h
     = (Return x, h ++ [err])
  /\ (let* r := Result.Err x in Result.expectErr message r) h
     = (Return x, h ++ [err])
  /\ (let* r := Result.Err x in Result.intoErr r) h = (Return x, h ++ [err]).
Proof.
  intros ok err.
  destruct (Ok_new h x) as (r & h' & Hok & _ & Hh' & Hr).
  destruct (Err_new h x) as (r' & h'' & Herr & _ & Hh'' & Hr').
  fold ok in Hh'. fold err in Hh''. rewrite <- Hh', <- Hh''.
  rewrite !(bind_Return _ _ _ _ _ Hok), !(bind_Return _ _ _ _ _ Herr).
  unfold Result.unwrap, Result.expect, Result.intoOk, Result.unwrapOr,
    Result.unwrapErr, Result.expectErr, Result.intoErr, bind.
  reads. done.
Qed.

(** ** From a [Result] to an [Option] and back *)

(** [ok] then [okOr(e)] gives back a Success holding the same value from a
    Success, and [Failure(e)] from any Failure: the error that [ok] dropped
    is replaced by [e]. *)
Theorem ok_then_okOr (h : heap) (self e : val) :
  loaded h ->
  (forall v,
      as_result h self = Some (Success v) ->
      exists r h',
        (let* o := Result.ok self in OptionBridge.okOr e o) h = (Return r, h')
        /\ as_result h' r = Some (Success v))
  /\ (forall e',
      as_result h self = Some (Failure e') ->
      exists r h',
        (let* o := Result.ok self in OptionBridge.okOr e o) h = (Return r, h')
        /\ as_result h' r = Some (Failure e)).
Proof.
  intros Hload. split.
  - intros v Hv.
    destruct (Some_new h v) as (o & h1 & Hsome & _ & _ & Ho).
    erewrite bind_Return by (unfold Result.ok, bind; reads; exact Hsome).
    unfold OptionBridge.okOr, bind. reads.
    destruct (Ok_new h1 v) as (r & h' & Hrun & _ & _ & Hr). eauto.
  - intros e' He'. pose proof (None_loaded h Hload) as Hnone.
    erewrite bind_Return by (unfold Result.ok, bind; reads; reflexivity).
    unfold OptionBridge.okOr, bind. reads.
    destruct (Err_new h e) as (r & h' & Hrun & _ & _ & Hr). eauto.
Qed.

(** On [Ok(5)], and on [Err("Oh no")] with the error [0]. *)
Lemma ok_then_okOr_witness :
  (exists r h',
      (let* o := Result.ok (VRef 1) in OptionBridge.okOr (VNum 0) o) test_store
      = (Return r, h')
      /\ as_result h' r = Some (Success (VNum 5)))
  /\ (exists r h',
      (let* o := Result.ok (VRef 2) in OptionBridge.okOr (VNum 0) o) test_store
      = (Return r, h')
      /\ as_result h' r = Some (Failure (VNum 0))).
Proof.
  split.
  - apply (proj1 (ok_then_okOr test_store (VRef 1) (VNum 0) eq_refl)).
    reflexivity.
  - apply (proj2 (ok_then_okOr test_store (VRef 2) (VNum 0) eq_refl)
             (VStr "Oh no")).
    reflexivity.
Defined.

(** ** The operations change no object *)

Lemma get_store (v : val) (k : string) (h : heap) (c : completion val) (h' : heap) :
  get v k h = (c, h') -> h' = h.
Proof.
  unfold get. destruct v as [| |b|n|s|l]; try by intros [= _ <-].
  destruct (h !! l) as [[fs|items]|]; by intros [= _ <-].
Qed.

Lemma get_index_store (v : val) (i : nat) (h : heap) (c : completion val) (h' : heap) :
  get_index v i h = (c, h') -> h' = h.
Proof.
  unfold get_index. destruct v as [| |b|n|s|l]; try by intros [= _ <-].
  - destruct (String.get i s); by intros [= _ <-].
  - destruct (h !! l) as [[fs|items]|]; by intros [= _ <-].
Qed.

Section OnlyAdds.
Context {A B : Type}.

Lemma only_adds_ret (a : A) : only_adds (ret a).
Proof. by intros h c h' [= _ <-]. Qed.

Lemma only_adds_throw (e : exn) : only_adds (@throw A e).
Proof. by intros h c h' [= _ <-]. Qed.

Lemma only_adds_bind (m : M A) (k : A -> M B) :
  only_adds m -> (forall a, only_adds (k a)) -> only_adds (bind m k).
Proof.
  intros Hm Hk h c h'. unfold bind.
  destruct (m h) as [[a|e] h1] eqn:Hrun.
  - intros Hka. etrans; [by eapply Hm|by eapply Hk].
  - intros [= _ <-]. by eapply Hm.
Qed.

End OnlyAdds.

Lemma only_adds_get (v : val) (k : string) : only_adds (get v k).
Proof. intros h c h' Hrun. by rewrite (get_store _ _ _ _ _ Hrun). Qed.

Lemma only_adds_get_index (v : val) (i : nat) : only_adds (get_index v i).
Proof. intros h c h' Hrun. by rewrite (get_index_store _ _ _ _ _ Hrun). Qed.

Lemma only_adds_alloc (o : obj) : only_adds (alloc o).
Proof. intros h c h' [= _ <-]. by apply prefix_app_r. Qed.

Lemma only_adds_JSON_stringify (v : val) : only_adds (JSON_stringify v).
Proof. by intros h c h' [= _ <-]. Qed.

(** The array that [combine] fills is the one it has just made. *)
Lemma combine_loop_fills_values (h : heap) (results acc : list val)
    (c : completion (option val)) (h' : heap) :
  Result.combine_loop (VRef (length h)) results (h ++ [OArray acc]) = (c, h') ->
  exists acc', h' = h ++ [OArray acc'].
Proof.
  revert acc. induction results as [|result rest IH]; intros acc.
  - intros [= _ <-]. by eexists.
  - simpl. unfold Result.isOk, bind.
    destruct (get result "_tag" (h ++ [OArray acc])) as [[tag|e] h1] eqn:Htag;
      rewrite (get_store _ _ _ _ _ Htag); [|intros [= _ <-]; by eexists].
    unfold ret. destruct (strict_equals tag (VStr "Ok"));
      [|intros [= _ <-]; by eexists].
    destruct (get result "value" (h ++ [OArray acc])) as [[v|e] h2] eqn:Hv;
      rewrite (get_store _ _ _ _ _ Hv); [|intros [= _ <-]; by eexists].
    rewrite push_values. apply IH.
Qed.

Lemma only_adds_combine (results : list val) : only_adds (Result.combine results).
Proof.
  intros h c h'. unfold Result.combine. unfold bind at 1, alloc at 1.
  unfold bind.
  destruct (Result.combine_loop _ _ _) as [[[result|]|e] h1] eqn:Hloop;
    destruct (combine_loop_fills_values _ _ _ _ _ Hloop) as [acc' ->].
  - intros [= _ <-]. by apply prefix_app_r.
  - intros [= _ <-]. rewrite <- app_assoc. by apply prefix_app_r.
  - intros [= _ <-]. by apply prefix_app_r.
Qed.

(** Breaks an operation down to its reads, its new objects and its calls. *)
Ltac adds :=
  repeat first
    [ assumption
    | apply only_adds_ret
    | apply only_adds_throw
    | apply only_adds_get
    | apply only_adds_get_index
    | apply only_adds_alloc
    | apply only_adds_JSON_stringify
    | apply only_adds_combine
    | apply only_adds_bind; [|intros ?]
    | match goal with
      | |- only_adds (if ?b then _ else _) => destruct b
      | H : forall v, only_adds (?f v) |- only_adds (?f _) => apply H
      | H : forall a b, only_adds (?f a b) |- only_adds (?f _ _) => apply H
      end ].

(** Every operation of [Result.ts], on any arguments, leaves each object
    it finds in the store as it is, provided its callbacks do: the store
    it ends with is the one it started with, followed by the objects
    built on the way, whether it returns or throws. *)
Theorem Result_operations_change_no_object (c : call) :
  Forall (fun fn : callback => forall v, only_adds (fn v)) (callbacks c) ->
  only_adds (run c).
Proof.
  intros Hcb.
  destruct c; simpl in Hcb;
    try rewrite Forall_singleton in Hcb;
    try (rewrite Forall_cons, Forall_singleton in Hcb;
         destruct Hcb as [Hcb1 Hcb2]);
    simpl run;
    unfold Result.Err, Result.Ok, Result.and, Result.andThen, Result.err,
      Result.expect, Result.expectErr, Result.flatten, Result.inspect,
      Result.inspectErr, Result.intoErr, Result.intoOk, Result.isErrAnd,
      Result.isOkAnd, Result.map, Result.mapErr, Result.mapOr,
      Result.mapOrElse, Result.ok, Result.or, Result.orElse, Result.transpose,
      Result.unwrap, Result.unwrapErr, Result.unwrapOr, Result.unwrapOrElse,
      Result.isOk, Result.isErr, Option.isNone, Option.Some, Result.Ok;
    adds.
Qed.

(** [map] with [(x) => Result.Ok(x)], and [combine]. *)
Lemma Result_operations_change_no_object_witness :
  test_store `prefix_of` (run (call_map wrap (VRef 1)) test_store).2
  /\ test_store
     `prefix_of` (run (call_combine [VRef 1; VRef 8; VRef 2]) test_store).2.
Proof.
  split.
  - apply (Result_operations_change_no_object (call_map wrap (VRef 1)))
      with (c := (run (call_map wrap (VRef 1)) test_store).1).
    + constructor; [|constructor]. intros v. apply only_adds_alloc.
    + reflexivity.
  - apply (Result_operations_change_no_object
             (call_combine [VRef 1; VRef 8; VRef 2]))
      with (c := (run (call_combine [VRef 1; VRef 8; VRef 2]) test_store).1).
    + constructor.
    + reflexivity.
Defined.

(** ** [isOk] and [isErr] *)

(** On every [Result] exactly one of [isOk] and [isErr] is true: [isOk] on
    a Success, [isErr] on a Failure. *)
Theorem isOk_isErr_exclusive (h : heap) (self : val) :
  is_Some (as_result h self) ->
  exists b,
    Result.isOk self h = (Return b, h)
    /\ Result.isErr self h = (Return (negb b), h)
    /\ (b = true <-> exists v, as_result h self = Some (Success v)).
Proof.
  intros [[v|e] Hself].
  - exists true. reads. repeat split; eauto.
  - exists false. reads. repeat split; [done|].
    intros [v Hv]. rewrite Hself in Hv. discriminate Hv.
Qed.

(** [isOk] and [isErr] on [Err("Oh no")]. *)
Lemma isOk_isErr_exclusive_witness :
  exists b,
    Result.isOk (VRef 2) test_store = (Return b, test_store)
    /\ Result.isErr (VRef 2) test_store = (Return (negb b), test_store)
    /\ (b = true
        <-> exists v, as_result test_store (VRef 2) = Some (Success v)).
Proof. apply (isOk_isErr_exclusive test_store (VRef 2)). by eexists. Defined.

(** ** The operations with a fallback *)

(** On a Success, [or], [orElse], [unwrapOr] and [unwrapOrElse] do not use
    their fallback (a callback is not called, the store is left as it was):
    the first two return [self], the other two its value.  On a Failure
    they return [other], what [f(error)] returns, [defaultValue], and what
    [f(error)] returns. *)
Theorem fallback_is_for_Failure (h : heap) (self : val) :
  (forall v (other d : val) (f : callback),
      as_result h self = Some (Success v) ->
      Result.or other self h = (Return self, h)
      /\ Result.orElse f self h = (Return self, h)
      /\ Result.unwrapOr d self h = (Return v, h)
      /\ Result.unwrapOrElse f self h = (Return v, h))
  /\ (forall e (other d : val) (f : callback),
      as_result h self = Some (Failure e) ->
      Result.or other self h = (Return other, h)
      /\ Result.orElse f self h = f e h
      /\ Result.unwrapOr d self h = (Return d, h)
      /\ Result.unwrapOrElse f self h = f e h).
Proof.
  split.
  - intros v other d f Hv.
    unfold Result.or, Result.orElse, Result.unwrapOr, Result.unwrapOrElse, bind.
    by reads.
  - intros e other d f He.
    unfold Result.or, Result.orElse, Result.unwrapOr, Result.unwrapOrElse, bind.
    by reads.
Qed.

(** On [Ok(5)] with a callback that would throw, and on [Err("Oh no")]. *)
Lemma fallback_is_for_Failure_witness :
  (Result.or (VRef 2) (VRef 1) test_store = (Return (VRef 1), test_store)
   /\ Result.orElse (fun _ => throw TypeError) (VRef 1) test_store
      = (Return (VRef 1), test_store)
   /\ Result.unwrapOr (VNum 0) (VRef 1) test_store
      = (Return (VNum 5), test_store)
   /\ Result.unwrapOrElse (fun _ => throw TypeError) (VRef 1) test_store
      = (Return (VNum 5), test_store))
  /\ (Result.or (VRef 1) (VRef 2) test_store = (Return (VRef 1), test_store)
      /\ Result.orElse zero (VRef 2) test_store = zero (VStr "Oh no") test_store
      /\ Result.unwrapOr (VNum 0) (VRef 2) test_store
         = (Return (VNum 0), test_store)
      /\ Result.unwrapOrElse zero (VRef 2) test_store
         = zero (VStr "Oh no") test_store).
Proof.
  split.
  - apply (proj1 (fallback_is_for_Failure test_store (VRef 1)) (VNum 5)).
    reflexivity.
  - apply (proj2 (fallback_is_for_Failure test_store (VRef 2)) (VStr "Oh no")).
    reflexivity.
Defined.

(** If reading [_tag] of a value returns, reading any other property of
    it returns too. *)
Lemma get_returns_for_every_name (v : val) (k k' : string) (h h' : heap) (x : val) :
  get v k h = (Return x, h') ->
  exists y, get v k' h = (Return y, h).
Proof.
  unfold get. destruct v as [| |b|n|s|l]; try discriminate; try by eexists.
  destruct (h !! l) as [[fs|items]|]; try discriminate; by eexists.
Qed.

Lemma get_throws_TypeError (v : val) (k : string) (h h' : heap) (e : exn) :
  get v k h = (Throw e, h') -> e = TypeError.
Proof.
  unfold get. destruct v as [| |b|n|s|l]; try discriminate;
    try by intros [= <- _].
  destruct (h !! l) as [[fs|items]|]; try discriminate. by intros [= <- _].
Qed.

(** An operation that takes a value is the operation that takes a callback,
    applied to the callback that returns that value: [unwrapOr(d)] is
    [unwrapOrElse(() => d)], [and(other)] is [andThen(() => other)] and
    [mapOr(d, f)] is [mapOrElse(() => d, f)], on every argument; [or(other)]
    is [orElse(() => other)] on a [Result]. *)
Theorem value_forms_are_constant_callbacks
    (h : heap) (self d other : val) (f : callback) :
  Result.unwrapOrElse (fun _ => ret d) self h = Result.unwrapOr d self h
  /\ Result.andThen (fun _ => ret other) self h = Result.and other self h
  /\ Result.mapOrElse (fun _ => ret d) f self h = Result.mapOr d f self h
  /\ (is_Some (as_result h self) ->
      Result.orElse (fun _ => ret other) self h = Result.or other self h).
Proof.
  assert (forall k, Result.isErr self h = (Throw TypeError, h)
                    \/ exists b y, Result.isErr self h = (Return b, h)
                                    /\ get self k h = (Return y, h)) as Hread.
  { intros k. unfold Result.isErr, bind.
    destruct (get self "_tag" h) as [[tag|e] h1] eqn:Htag.
    - destruct (get_returns_for_every_name _ _ k _ _ _ Htag) as [y Hy].
      rewrite (get_store _ _ _ _ _ Htag). right. by eexists _, _.
    - left. rewrite (get_store _ _ _ _ _ Htag).
      by rewrite (get_throws_TypeError _ _ _ _ _ Htag). }
  split; [|split; [|split]].
  - unfold Result.unwrapOrElse, Result.unwrapOr, bind.
    destruct (Hread "error") as [->|(b & y & -> & Hy)]; [done|].
    destruct b; [by rewrite Hy|done].
  - unfold Result.andThen, Result.and, bind.
    destruct (Hread "value") as [->|(b & y & -> & Hy)]; [done|].
    destruct b; [done|by rewrite Hy].
  - unfold Result.mapOrElse, Result.mapOr, bind.
    destruct (Hread "error") as [->|(b & y & -> & Hy)]; [done|].
    destruct b; [by rewrite Hy|done].
  - intros [[v|e] Hself]; unfold Result.orElse, Result.or, bind; by reads.
Qed.

(** The four pairs on [Ok(5)]. *)
Lemma value_forms_are_constant_callbacks_witness :
  Result.unwrapOrElse (fun _ => ret (VNum 0)) (VRef 1) test_store
  = Result.unwrapOr (VNum 0) (VRef 1) test_store
  /\ Result.andThen (fun _ => ret (VRef 8)) (VRef 1) test_store
     = Result.and (VRef 8) (VRef 1) test_store
  /\ Result.mapOrElse (fun _ => ret (VNum 0)) zero (VRef 1) test_store
     = Result.mapOr (VNum 0) zero (VRef 1) test_store
  /\ Result.orElse (fun _ => ret (VRef 8)) (VRef 1) test_store
     = Result.or (VRef 8) (VRef 1) test_store.
Proof.
  pose proof (value_forms_are_constant_callbacks test_store (VRef 1) (VNum 0)
                (VRef 8) zero) as (H1 & H2 & H3 & H4).
  split; [exact H1|]. split; [exact H2|]. split; [exact H3|].
  apply H4. by eexists.
Defined.

(** ** [map] on functions without effect *)

(** [map] of the identity builds a [Result] that reads as [self] does, and
    [map(F)] then [map(G)] builds one that reads as the result of
    [map] with [G] after [F] does. *)
Theorem map_identity_and_composition (h : heap) (self : val) (F G : val -> val) :
  is_Some (as_result h self) ->
  (exists r h',
      Result.map (fun v => ret v) self h = (Return r, h')
      /\ as_result h' r = as_result h self)
  /\ (exists r1 h1 r2 h2,
      (let* m := Result.map (fun v => ret (F v)) self in
       Result.map (fun v => ret (G v)) m) h = (Return r1, h1)
      /\ Result.map (fun v => ret (G (F v))) self h = (Return r2, h2)
      /\ as_result h1 r1 = as_result h2 r2).
Proof.
  intros [[v|e] Hself].
  - split.
    + destruct (Ok_new h v) as (r & h' & Hrun & _ & _ & Hr).
      exists r, h'. split; [|by rewrite Hself].
      unfold Result.map, bind. by reads.
    + destruct (Ok_new h (F v)) as (m & hm & Hm & _ & _ & Hmv).
      destruct (Ok_new hm (G (F v))) as (r1 & h1 & Hr1 & _ & _ & Hr1v).
      destruct (Ok_new h (G (F v))) as (r2 & h2 & Hr2 & _ & _ & Hr2v).
      exists r1, h1, r2, h2. split; [|split; [|by rewrite Hr1v, Hr2v]].
      * erewrite bind_Return by (unfold Result.map, bind; reads; exact Hm).
        unfold Result.map, bind. by reads.
      * unfold Result.map, bind. by reads.
  - assert (forall f, Result.map f self h = (Return self, h)) as Hmap
      by (intros f; unfold Result.map, bind; by reads).
    split; [by eexists _, _|].
    exists self, h, self, h. rewrite (bind_Return _ _ _ _ _ (Hmap _)).
    by rewrite !Hmap.
Qed.

(** On [Ok(5)], with constant functions. *)
Lemma map_identity_and_composition_witness :
  (exists r h',
      Result.map (fun v => ret v) (VRef 1) test_store = (Return r, h')
      /\ as_result h' r = as_result test_store (VRef 1))
  /\ (exists r1 h1 r2 h2,
      (let* m := Result.map (fun v => ret ((fun _ => VNum 1) v)) (VRef 1) in
       Result.map (fun v => ret ((fun _ => VStr "x") v)) m) test_store
      = (Return r1, h1)
      /\ Result.map (fun v => ret ((fun _ => VStr "x") ((fun _ => VNum 1) v)))
           (VRef 1) test_store = (Return r2, h2)
      /\ as_result h1 r1 = as_result h2 r2).
Proof.
  apply (map_identity_and_composition test_store (VRef 1)
           (fun _ => VNum 1) (fun _ => VStr "x")).
  by eexists.
Defined.

(** ** [intoOk], [intoErr], [isOkAnd] and [isErrAnd] *)

(** [intoOk] on a Failure and [intoErr] on a Success return [undefined]
    and do not throw; on the other variant they return the payload.
    [isOkAnd(p)] on a Failure and [isErrAnd(p)] on a Success return [false]
    without calling [p]; on the other variant they are the call of [p] on
    the payload. *)
Theorem into_and_isAnd_on_each_variant (h : heap) (self : val) (p : callback) :
  (forall v,
      as_result h self = Some (Success v) ->
      Result.intoOk self h = (Return v, h)
      /\ Result.intoErr self h = (Return VUndefined, h)
      /\ Result.isOkAnd p self h = p v h
      /\ Result.isErrAnd p self h = (Return (VBool false), h))
  /\ (forall e,
      as_result h self = Some (Failure e) ->
      Result.intoOk self h = (Return VUndefined, h)
      /\ Result.intoErr self h = (Return e, h)
      /\ Result.isOkAnd p self h = (Return (VBool false), h)
      /\ Result.isErrAnd p self h = p e h).
Proof.
  split.
  - intros v Hv.
    unfold Result.intoOk, Result.intoErr, Result.isOkAnd, Result.isErrAnd, bind.
    by reads.
  - intros e He.
    unfold Result.intoOk, Result.intoErr, Result.isOkAnd, Result.isErrAnd, bind.
    by reads.
Qed.

(** On [Ok(5)] and on [Err("Oh no")], with [(x) => x === 5]. *)
Lemma into_and_isAnd_on_each_variant_witness :
  (Result.intoOk (VRef 1) test_store = (Return (VNum 5), test_store)
   /\ Result.intoErr (VRef 1) test_store = (Return VUndefined, test_store)
   /\ Result.isOkAnd is_five (VRef 1) test_store = is_five (VNum 5) test_store
   /\ Result.isErrAnd is_five (VRef 1) test_store
      = (Return (VBool false), test_store))
  /\ (Result.intoOk (VRef 2) test_store = (Return VUndefined, test_store)
      /\ Result.intoErr (VRef 2) test_store = (Return (VStr "Oh no"), test_store)
      /\ Result.isOkAnd is_five (VRef 2) test_store
         = (Return (VBool false), test_store)
      /\ Result.isErrAnd is_five (VRef 2) test_store
         = is_five (VStr "Oh no") test_store).
Proof.
  split.
  - apply (proj1 (into_and_isAnd_on_each_variant test_store (VRef 1) is_five)
             (VNum 5)).
    reflexivity.
  - apply (proj2 (into_and_isAnd_on_each_variant test_store (VRef 2) is_five)
             (VStr "Oh no")).
    reflexivity.
Defined.

(** * Properties of [Option.ts] *)

Lemma isSome_Present (h : heap) (self v : val) :
  as_option h self = Some (Present v) -> Option.isSome self h = (Return true, h).
Proof.
  intros (l & fs & -> & Hl & Htag & _)%as_option_Present_inv.
  unfold Option.isSome, bind, get, ret. by rewrite Hl, Htag.
Qed.

Lemma isSome_Absent (h : heap) (self : val) :
  as_option h self = Some Absent -> Option.isSome self h = (Return false, h).
Proof.
  intros (l & fs & -> & Hl & Htag)%as_option_Absent_inv.
  unfold Option.isSome, bind, get, ret. by rewrite Hl, Htag.
Qed.

(** On every [Option] exactly one of [isSome] and [isNone] is true:
    [isSome] on a [Some], [isNone] on a [None]. *)
Theorem isSome_isNone_exclusive (h : heap) (self : val) :
  is_Some (as_option h self) ->
  exists b,
    Option.isSome self h = (Return b, h)
    /\ Option.isNone self h = (Return (negb b), h)
    /\ (b = true <-> exists v, as_option h self = Some (Present v)).
Proof.
  intros [[v|] Hself].
  - exists true. rewrite (isSome_Present _ _ _ Hself). reads.
    repeat split; eauto.
  - exists false. rewrite (isSome_Absent _ _ Hself). reads.
    repeat split; [done|]. intros [v Hv]. rewrite Hself in Hv. discriminate Hv.
Qed.

(** [isSome] and [isNone] on [Option.None]. *)
Lemma isSome_isNone_exclusive_witness :
  exists b,
    Option.isSome Option.None test_store = (Return b, test_store)
    /\ Option.isNone Option.None test_store = (Return (negb b), test_store)
    /\ (b = true
        <-> exists v, as_option test_store Option.None = Some (Present v)).
Proof. apply (isSome_isNone_exclusive test_store Option.None). by eexists. Defined.

(** ** [unwrap] and [expect] *)

(** On a [None], [unwrap] throws an [Error] with its own fixed message and
    [expect(message)] one whose message is [message], nothing added; on
    [Some(v)] both return [v].  The store is left as it was. *)
Theorem Option_unwrap_expect (h : heap) (self : val) (message : string) :
  (as_option h self = Some Absent ->
   Option.unwrap self h
   = (Throw (Error "[Option] Tried to unwrap an `Option.None`."), h)
   /\ Option.expect message self h = (Throw (Error message), h))
  /\ (forall v,
      as_option h self = Some (Present v) ->
      Option.unwrap self h = (Return v, h)
      /\ Option.expect message self h = (Return v, h)).
Proof.
  split.
  - intros Hnone. unfold Option.unwrap, Option.expect, bind. by reads.
  - intros v Hv. unfold Option.unwrap, Option.expect, bind. by reads.
Qed.

(** On [Option.None] and on [Some(5)], with the message of the tests. *)
Lemma Option_unwrap_expect_witness :
  (Option.unwrap Option.None test_store
   = (Throw (Error "[Option] Tried to unwrap an `Option.None`."), test_store)
   /\ Option.expect "oh no!" Option.None test_store
      = (Throw (Error "oh no!"), test_store))
  /\ (Option.unwrap (VRef 3) test_store = (Return (VNum 5), test_store)
      /\ Option.expect "oh no!" (VRef 3) test_store
         = (Return (VNum 5), test_store)).
Proof.
  split.
  - apply (proj1 (Option_unwrap_expect test_store Option.None "oh no!")).
    reflexivity.
  - apply (proj2 (Option_unwrap_expect test_store (VRef 3) "oh no!") (VNum 5)).
    reflexivity.
Defined.

(** ** [fromNullable] *)

(** [fromNullable(null)] is [Option.None], the shared object, and
    [fromNullable] of any other value, [undefined] included, builds a
    [Some] of it. *)
Theorem fromNullable_only_null_is_None (h : heap) :
  Option.fromNullable VNull h = (Return Option.None, h)
  /\ (forall v,
      v <> VNull ->
      exists r h',
        Option.fromNullable v h = (Return r, h')
        /\ as_option h' r = Some (Present v)).
Proof.
  split; [done|]. intros v Hv.
  destruct (Some_new h v) as (r & h' & Hrun & _ & _ & Hr).
  exists r, h'. split; [|done]. unfold Option.fromNullable.
  by destruct v.
Qed.

(** [fromNullable(5)] and [fromNullable(undefined)]. *)
Lemma fromNullable_only_null_is_None_witness :
  (exists r h',
      Option.fromNullable (VNum 5) test_store = (Return r, h')
      /\ as_option h' r = Some (Present (VNum 5)))
  /\ (exists r h',
      Option.fromNullable VUndefined test_store = (Return r, h')
      /\ as_option h' r = Some (Present VUndefined)).
Proof.
  split.
  - apply (proj2 (fromNullable_only_null_is_None test_store) (VNum 5)).
    discriminate.
  - apply (proj2 (fromNullable_only_null_is_None test_store) VUndefined).
    discriminate.
Defined.

(** ** [map], [mapOr], [mapOrElse] and [match] *)

(** On a [None], [map(f)] returns [self] and [mapOr], [mapOrElse] and
    [match] build a [Some] of their default, [mapOrElse] calling [cb] for
    it; [f] is not called.  On [Some(v)] all four build a [Some] of what
    [f(v)] returns and [cb] is not called.  [match] is [mapOr] with its two
    arguments in one object. *)
Theorem Option_map_family (h : heap) (self : val) :
  (forall (f : callback) (d : val) (cb : M val) u h1,
      as_option h self = Some Absent ->
      cb h = (Return u, h1) ->
      Option.map f self h = (Return self, h)
      /\ Option.mapOr d f self h = Option.Some d h
      /\ Option.mapOrElse cb f self h = Option.Some u h1)
  /\ (forall (f : callback) (d : val) (cb : M val) v u h1,
      as_option h self = Some (Present v) ->
      f v h = (Return u, h1) ->
      Option.map f self h = Option.Some u h1
      /\ Option.mapOr d f self h = Option.Some u h1
      /\ Option.mapOrElse cb f self h = Option.Some u h1)
  /\ (forall fns,
      Option.match_ fns self h
      = Option.mapOr (Option.fns_None fns) (Option.fns_Some fns) self h)
  /\ (forall x h2, exists r h',
        Option.Some x h2 = (Return r, h')
        /\ as_option h' r = Some (Present x)).
Proof.
  split; [|split; [|split]].
  - intros f d cb u h1 Hnone Hcb.
    unfold Option.map, Option.mapOr, Option.mapOrElse, bind. reads.
    by rewrite Hcb.
  - intros f d cb v u h1 Hv Hf.
    unfold Option.map, Option.mapOr, Option.mapOrElse, bind. reads.
    by rewrite Hf.
  - done.
  - intros x h2. destruct (Some_new h2 x) as (r & h' & Hrun & _ & _ & Hr).
    eauto.
Qed.

(** On [Option.None] and on [Some(5)], with [() => 0]. *)
Lemma Option_map_family_witness :
  (Option.map (fun _ => throw TypeError) Option.None test_store
   = (Return Option.None, test_store)
   /\ Option.mapOr (VNum 0) (fun _ => throw TypeError) Option.None test_store
      = Option.Some (VNum 0) test_store
   /\ Option.mapOrElse (ret (VNum 0)) (fun _ => throw TypeError) Option.None
        test_store
      = Option.Some (VNum 0) test_store)
  /\ (Option.map zero (VRef 3) test_store = Option.Some (VNum 0) test_store
      /\ Option.mapOr (VNum 1) zero (VRef 3) test_store
         = Option.Some (VNum 0) test_store
      /\ Option.mapOrElse (throw TypeError) zero (VRef 3) test_store
         = Option.Some (VNum 0) test_store).
Proof.
  split.
  - apply (proj1 (Option_map_family test_store Option.None)
             (fun _ => throw TypeError) (VNum 0) (ret (VNum 0)) (VNum 0)
             test_store); reflexivity.
  - apply (proj1 (proj2 (Option_map_family test_store (VRef 3)))
             zero (VNum 1) (throw TypeError) (VNum 5) (VNum 0) test_store);
      reflexivity.
Defined.

(** ** [and], [andThen], [or] and [orElse] *)

(** On a [None], [and] and [andThen] return [self] ([f] is not called), [or]
    returns the default and [orElse(fn)] is the call of [fn].  On a
    [Some(v)], [and] returns the second option, [andThen(f)] is the call
    [f(v)], and [or] and [orElse] return [self] ([fn] is not called). *)
Theorem Option_and_or (h : heap) (self : val) :
  (forall (other : val) (f : callback) (fn : M val),
      as_option h self = Some Absent ->
      Option.and other self h = (Return self, h)
      /\ Option.andThen f self h = (Return self, h)
      /\ Option.or other self h = (Return other, h)
      /\ Option.orElse fn self h = fn h)
  /\ (forall v (other : val) (f : callback) (fn : M val),
      as_option h self = Some (Present v) ->
      Option.and other self h = (Return other, h)
      /\ Option.andThen f self h = f v h
      /\ Option.or other self h = (Return self, h)
      /\ Option.orElse fn self h = (Return self, h)).
Proof.
  split.
  - intros other f fn Hnone.
    unfold Option.and, Option.andThen, Option.or, Option.orElse, bind.
    by reads.
  - intros v other f fn Hv.
    unfold Option.and, Option.andThen, Option.or, Option.orElse, bind.
    by reads.
Qed.

(** On [Option.None] and on [Some(5)], with callbacks that would throw
    where they are not to be called. *)
Lemma Option_and_or_witness :
  (Option.and (VRef 18) Option.None option_store
   = (Return Option.None, option_store)
   /\ Option.andThen (fun _ => throw TypeError) Option.None option_store
      = (Return Option.None, option_store)
   /\ Option.or (VRef 18) Option.None option_store
      = (Return (VRef 18), option_store)
   /\ Option.orElse (ret (VRef 18)) Option.None option_store
      = ret (VRef 18) option_store)
  /\ (Option.and (VRef 18) (VRef 3) option_store
      = (Return (VRef 18), option_store)
      /\ Option.andThen zero (VRef 3) option_store = zero (VNum 5) option_store
      /\ Option.or (VRef 18) (VRef 3) option_store
         = (Return (VRef 3), option_store)
      /\ Option.orElse (throw TypeError) (VRef 3) option_store
         = (Return (VRef 3), option_store)).
Proof.
  split.
  - apply (proj1 (Option_and_or option_store Option.None)). reflexivity.
  - apply (proj2 (Option_and_or option_store (VRef 3)) (VNum 5)). reflexivity.
Defined.

(** ** [filter], [flatten] and [inspect] *)

(** [filter(p)] returns [self], the same object, from a [None] (without
    calling [p]) and from a [Some(v)] on which [p] returns a truthy value;
    where [p] returns a falsy one it returns [Option.None], the shared
    object. *)
Theorem filter_keeps_self_or_gives_None (h : heap) (self : val) (p : callback) :
  (as_option h self = Some Absent ->
   Option.filter p self h = (Return self, h))
  /\ (forall v keep h1,
      as_option h self = Some (Present v) ->
      p v h = (Return keep, h1) ->
      Option.filter p self h
      = (Return (if ToBoolean keep then self else Option.None), h1)).
Proof.
  split.
  - intros Hnone. unfold Option.filter, bind. by reads.
  - intros v keep h1 Hv Hp. unfold Option.filter, bind. reads. rewrite Hp.
    by destruct (ToBoolean keep).
Qed.

(** [filter] with [(x) => x === 5] on [Option.None], [Some(5)] and
    [Some(1)]. *)
Lemma filter_keeps_self_or_gives_None_witness :
  Option.filter (fun _ => throw TypeError) Option.None option_store
  = (Return Option.None, option_store)
  /\ Option.filter is_five (VRef 3) option_store
     = (Return (VRef 3), option_store)
  /\ Option.filter is_five (VRef 20) option_store
     = (Return Option.None, option_store).
Proof.
  split; [|split].
  - apply (proj1 (filter_keeps_self_or_gives_None option_store Option.None
                    (fun _ => throw TypeError))).
    reflexivity.
  - apply (proj2 (filter_keeps_self_or_gives_None option_store (VRef 3) is_five)
             (VNum 5) (VBool true) option_store); reflexivity.
  - apply (proj2 (filter_keeps_self_or_gives_None option_store (VRef 20) is_five)
             (VNum 1) (VBool false) option_store); reflexivity.
Defined.

(** [flatten] returns a [None] as it is and from [Some(o)] the inner [o],
    the object itself; [inspect(f)] returns [self], without calling [f] on
    a [None] and after [f] has completed on a [Some]. *)
Theorem Option_flatten_inspect (h : heap) (self : val) (f : callback) :
  (as_option h self = Some Absent ->
   Option.flatten self h = (Return self, h)
   /\ Option.inspect f self h = (Return self, h))
  /\ (forall v,
      as_option h self = Some (Present v) ->
      Option.flatten self h = (Return v, h)
      /\ (forall u h1, f v h = (Return u, h1) ->
                       Option.inspect f self h = (Return self, h1))).
Proof.
  split.
  - intros Hnone. unfold Option.flatten, Option.inspect, bind. by reads.
  - intros v Hv. unfold Option.flatten, Option.inspect, bind. reads.
    split; [done|]. by intros u h1 ->.
Qed.

(** On [Option.None] and on [Some(Some(5))], with a [vi.fn()]. *)
Lemma Option_flatten_inspect_witness :
  (Option.flatten Option.None option_store = (Return Option.None, option_store)
   /\ Option.inspect (vi_fn (VRef 15)) Option.None option_store
      = (Return Option.None, option_store))
  /\ (Option.flatten (VRef 19) option_store = (Return (VRef 3), option_store)
      /\ Option.inspect (vi_fn (VRef 15)) (VRef 19) option_store
         = (Return (VRef 19), <[15 := OArray [VRef 3]]> option_store)).
Proof.
  split.
  - apply (proj1 (Option_flatten_inspect option_store Option.None
                    (vi_fn (VRef 15)))).
    reflexivity.
  - pose proof (proj2 (Option_flatten_inspect option_store (VRef 19)
                         (vi_fn (VRef 15))) (VRef 3) eq_refl) as [H1 H2].
    split; [exact H1|]. apply (H2 VUndefined). reflexivity.
Defined.

(** ** [zip], [zipWith] and [unzip] *)

(** [zip] and [zipWith] look at [self] first: on a [None] they return
    [self] whatever [other] is; on a [Some] with [other] a [None] they
    return [other]; [fn] is called in neither case.  On two [Some]s, [zip]
    builds a [Some] of a new array of the two values, [self]'s first, and
    [zipWith] a [Some] of what [fn] returns on them. *)
Theorem zip_looks_at_self_first
    (h : heap) (self other : val) (fn : val -> val -> M val) :
  (as_option h self = Some Absent ->
   Option.zip other self h = (Return self, h)
   /\ Option.zipWith other fn self h = (Return self, h))
  /\ (forall a,
      as_option h self = Some (Present a) ->
      as_option h other = Some Absent ->
      Option.zip other self h = (Return other, h)
      /\ Option.zipWith other fn self h = (Return other, h))
  /\ (forall a b,
      as_option h self = Some (Present a) ->
      as_option h other = Some (Present b) ->
      (exists r h',
          Option.zip other self h = (Return r, h')
          /\ as_option h' r = Some (Present (VRef (length h)))
          /\ h' !! length h = Some (OArray [a; b]))
      /\ Option.zipWith other fn self h
         = (let* v := fn a b in Option.Some v) h).
Proof.
  split; [|split].
  - intros Hnone. unfold Option.zip, Option.zipWith, bind. by reads.
  - intros a Ha Hnone. unfold Option.zip, Option.zipWith, bind. by reads.
  - intros a b Ha Hb. split.
    + unfold Option.zip, bind. reads. unfold alloc at 1.
      destruct (Some_new (h ++ [OArray [a; b]]) (VRef (length h)))
        as (r & h' & Hrun & _ & -> & Hr).
      eexists _, _. split; [exact Hrun|]. split; [exact Hr|].
      apply lookup_app_l_Some, lookup_new.
    + unfold Option.zipWith, bind. by reads.
Qed.

(** [zip] and [zipWith] on the options of the tests. *)
Lemma zip_looks_at_self_first_witness :
  (Option.zip (VRef 18) Option.None option_store
   = (Return Option.None, option_store)
   /\ Option.zipWith (VRef 18) (fun _ _ => throw TypeError) Option.None
        option_store
      = (Return Option.None, option_store))
  /\ (Option.zip Option.None (VRef 20) option_store
      = (Return Option.None, option_store)
      /\ Option.zipWith Option.None (fun _ _ => throw TypeError) (VRef 20)
           option_store
         = (Return Option.None, option_store))
  /\ ((exists r h',
          Option.zip (VRef 18) (VRef 20) option_store = (Return r, h')
          /\ as_option h' r = Some (Present (VRef (length option_store)))
          /\ h' !! length option_store = Some (OArray [VNum 1; VStr "hi"]))
      /\ Option.zipWith (VRef 18) (fun a _ => ret a) (VRef 20) option_store
         = (let* v := (fun a _ => ret a) (VNum 1) (VStr "hi") in Option.Some v)
             option_store).
Proof.
  split; [|split].
  - apply (proj1 (zip_looks_at_self_first option_store Option.None (VRef 18)
                    (fun _ _ => throw TypeError))).
    reflexivity.
  - apply (proj1 (proj2 (zip_looks_at_self_first option_store (VRef 20)
                           Option.None (fun _ _ => throw TypeError)))
             (VNum 1)); reflexivity.
  - apply (proj2 (proj2 (zip_looks_at_self_first option_store (VRef 20)
                           (VRef 18) (fun a _ => ret a)))
             (VNum 1) (VStr "hi")); reflexivity.
Defined.

Lemma unzip_Some_of_array (h : heap) (self : val) (l : loc) (items : list val) :
  as_option h self = Some (Present (VRef l)) ->
  h !! l = Some (OArray items) ->
  exists first second h',
    Option.unzip self h = (Return (VRef (length h')), h' ++ [OArray [first; second]])
    /\ h `prefix_of` h'
    /\ as_option h' first = Some (Present (default VUndefined (items !! 0)))
    /\ as_option h' second = Some (Present (default VUndefined (items !! 1))).
Proof.
  intros Hself Hl. unfold Option.unzip. unfold bind at 1 2 3. reads.
  unfold get_index at 1. rewrite Hl.
  destruct (Some_new h (default VUndefined (items !! 0)))
    as (first & h1 & Hfirst & _ & Hh1 & Hfirstv).
  rewrite (bind_Return _ _ _ _ _ Hfirst).
  assert (as_option h1 self = Some (Present (VRef l))) as Hself1
    by (rewrite Hh1, as_option_app; by rewrite Hself).
  assert (h1 !! l = Some (OArray items)) as Hl1
    by (rewrite Hh1; by apply lookup_app_l_Some).
  unfold bind at 1 2. reads. unfold get_index at 1. rewrite Hl1.
  destruct (Some_new h1 (default VUndefined (items !! 1)))
    as (second & h2 & Hsecond & _ & Hh2 & Hsecondv).
  rewrite (bind_Return _ _ _ _ _ Hsecond).
  exists first, second, h2. split; [done|]. split; [|split; [|done]].
  - rewrite Hh2, Hh1, <- app_assoc. by apply prefix_app_r.
  - rewrite Hh2, as_option_app; by rewrite Hfirstv.
Qed.

Lemma unzip_Some_of_array_builds (h : heap) (self : val) (l : loc) (items : list val) :
  as_option h self = Some (Present (VRef l)) ->
  h !! l = Some (OArray items) ->
  Option.unzip self h
  = (Return (VRef (length h + 2)),
     h ++ [ OObject [("__tag", VStr "Some");
                     ("value", default VUndefined (items !! 0))]
          ; OObject [("__tag", VStr "Some");
                     ("value", default VUndefined (items !! 1))]
          ; OArray [VRef (length h); VRef (length h + 1)] ]).
Proof.
  intros Hself Hl. unfold Option.unzip. unfold bind at 1 2 3. reads.
  unfold get_index at 1. rewrite Hl.
  destruct (Some_new h (default VUndefined (items !! 0)))
    as (first & h1 & Hfirst & -> & Hh1 & _).
  rewrite (bind_Return _ _ _ _ _ Hfirst).
  assert (as_option h1 self = Some (Present (VRef l))) as Hself1
    by (rewrite Hh1, as_option_app; by rewrite Hself).
  assert (h1 !! l = Some (OArray items)) as Hl1
    by (rewrite Hh1; by apply lookup_app_l_Some).
  unfold bind at 1 2. reads. unfold get_index at 1. rewrite Hl1.
  destruct (Some_new h1 (default VUndefined (items !! 1)))
    as (second & h2 & Hsecond & -> & Hh2 & _).
  rewrite (bind_Return _ _ _ _ _ Hsecond).
  unfold alloc. rewrite Hh2, Hh1, !length_app. simpl length.
  rewrite <- !app_assoc, <- ?Nat.add_assoc. reflexivity.
Qed.

(** [unzip] undoes [zip]: from [Some(a)] and [Some(b)], [zip] then [unzip]
    adds five objects to the store and no other, in this order: the pair
    and the [Some] of it that [zip] builds, then a new [Some(a)], a new
    [Some(b)], and a new array of these two, which is what is returned.
    [unzip] of a [None] returns a new array holding [Option.None] twice. *)
Theorem unzip_after_zip (h : heap) (self other : val) :
  (forall a b,
      as_option h self = Some (Present a) ->
      as_option h other = Some (Present b) ->
      (let* z := Option.zip other self in Option.unzip z) h
      = (Return (VRef (length h + 4)),
         h ++ [ OArray [a; b]
              ; OObject [("__tag", VStr "Some"); ("value", VRef (length h))]
              ; OObject [("__tag", VStr "Some"); ("value", a)]
              ; OObject [("__tag", VStr "Some"); ("value", b)]
              ; OArray [VRef (length h + 2); VRef (length h + 3)] ]))
  /\ (as_option h self = Some Absent ->
      Option.unzip self h
      = (Return (VRef (length h)), h ++ [OArray [Option.None; Option.None]])).
Proof.
  split.
  - intros a b Ha Hb.
    destruct (Some_new (h ++ [OArray [a; b]]) (VRef (length h)))
      as (z & hz & Hz & _ & Hhz & Hzv).
    assert (Option.zip other self h = (Return z, hz)) as Hzip
      by (unfold Option.zip, bind; by reads).
    rewrite (bind_Return _ _ _ _ _ Hzip).
    assert (hz !! length h = Some (OArray [a; b])) as Hpair
      by (rewrite Hhz; apply lookup_app_l_Some, lookup_new).
    rewrite (unzip_Some_of_array_builds hz z (length h) [a; b] Hzv Hpair).
    rewrite Hhz, !length_app. simpl length.
    rewrite <- !app_assoc, <- ?Nat.add_assoc. reflexivity.
  - intros Hnone. unfold Option.unzip, bind. by reads.
Qed.

(** [zip] then [unzip] on [Some(1)] and [Some("hi")], and [unzip] on
    [Option.None]. *)
Lemma unzip_after_zip_witness :
  (let* z := Option.zip (VRef 18) (VRef 20) in Option.unzip z) option_store
  = (Return (VRef (length option_store + 4)),
     option_store
     ++ [ OArray [VNum 1; VStr "hi"]
        ; OObject [("__tag", VStr "Some");
                   ("value", VRef (length option_store))]
        ; OObject [("__tag", VStr "Some"); ("value", VNum 1)]
        ; OObject [("__tag", VStr "Some"); ("value", VStr "hi")]
        ; OArray [VRef (length option_store + 2);
                  VRef (length option_store + 3)] ])
  /\ Option.unzip Option.None option_store
     = (Return (VRef (length option_store)),
        option_store ++ [OArray [Option.None; Option.None]]).
Proof.
  split.
  - apply (proj1 (unzip_after_zip option_store (VRef 20) (VRef 18))
             (VNum 1) (VStr "hi")); reflexivity.
  - apply (proj2 (unzip_after_zip option_store Option.None (VRef 18))).
    reflexivity.
Defined.

(** ** [okOr] and [okOrElse] *)

(** On [Some(v)], [okOr(e)] and [okOrElse(fn)] are the call [Ok(v)]: [fn] is
    not called.  On a [None], [okOr(e)] is the call [Err(e)] and
    [okOrElse(fn)] calls [fn] and is [Err] of what it returns.  [okOr(e)]
    is [okOrElse(() => e)] on every argument. *)
Theorem okOr_okOrElse (h : heap) (self e : val) (fn : M val) :
  (forall v,
      as_option h self = Some (Present v) ->
      OptionBridge.okOr e self h = Result.Ok v h
      /\ OptionBridge.okOrElse fn self h = Result.Ok v h
      /\ exists r h', Result.Ok v h = (Return r, h')
                      /\ as_result h' r = Some (Success v))
  /\ (as_option h self = Some Absent ->
      OptionBridge.okOr e self h = Result.Err e h
      /\ OptionBridge.okOrElse fn self h = (let* x := fn in Result.Err x) h
      /\ exists r h', Result.Err e h = (Return r, h')
                      /\ as_result h' r = Some (Failure e))
  /\ OptionBridge.okOrElse (ret e) self h = OptionBridge.okOr e self h.
Proof.
  split; [|split].
  - intros v Hv. unfold OptionBridge.okOr, OptionBridge.okOrElse, bind. reads.
    repeat split. destruct (Ok_new h v) as (r & h' & Hrun & _ & _ & Hr). eauto.
  - intros Hnone. unfold OptionBridge.okOr, OptionBridge.okOrElse, bind. reads.
    repeat split. destruct (Err_new h e) as (r & h' & Hrun & _ & _ & Hr). eauto.
  - unfold OptionBridge.okOrElse, OptionBridge.okOr, bind.
    destruct (Option.isNone self h) as [[[|]|x] h1]; done.
Qed.

(** On [Some(5)] with a callback that would throw, and on [Option.None]. *)
Lemma okOr_okOrElse_witness :
  (OptionBridge.okOr (VNum 0) (VRef 3) test_store = Result.Ok (VNum 5) test_store
   /\ OptionBridge.okOrElse (throw TypeError) (VRef 3) test_store
      = Result.Ok (VNum 5) test_store
   /\ exists r h', Result.Ok (VNum 5) test_store = (Return r, h')
                   /\ as_result h' r = Some (Success (VNum 5)))
  /\ (OptionBridge.okOr (VNum 0) Option.None test_store
      = Result.Err (VNum 0) test_store
      /\ OptionBridge.okOrElse (ret (VNum 0)) Option.None test_store
         = (let* x := ret (VNum 0) in Result.Err x) test_store
      /\ exists r h', Result.Err (VNum 0) test_store = (Return r, h')
                      /\ as_result h' r = Some (Failure (VNum 0))).
Proof.
  split.
  - apply (proj1 (okOr_okOrElse test_store (VRef 3) (VNum 0) (throw TypeError))
             (VNum 5)).
    reflexivity.
  - apply (proj1 (proj2 (okOr_okOrElse test_store Option.None (VNum 0)
                           (ret (VNum 0))))).
    reflexivity.
Defined.

(** ** Which operations of [Option.ts] throw *)

Ltac call_thunk :=
  match goal with
  | Hf : completes ?f |- context [?f ?h] =>
      let u := fresh "u" in
      let h' := fresh "h" in
      let Hcall := fresh "Hcall" in
      destruct (Hf h) as (u & h' & Hcall); rewrite Hcall; cbv beta iota
  | Hf : forall a b h, exists u h', ?f a b h = _ |- context [?f ?a ?b ?h] =>
      let u := fresh "u" in
      let h' := fresh "h" in
      let Hcall := fresh "Hcall" in
      destruct (Hf a b h) as (u & h' & Hcall); rewrite Hcall; cbv beta iota
  end.

Lemma unzip_returns (h : heap) (self : val) :
  is_Some (as_option h self) ->
  (forall inner, as_option h self = Some (Present inner) ->
                 exists l items, inner = VRef l /\ h !! l = Some (OArray items)) ->
  raises (Option.unzip self h) = false.
Proof.
  intros [[inner|] Hself] Hnest.
  - destruct (Hnest inner Hself) as (l & items & -> & Hl).
    destruct (unzip_Some_of_array h self l items Hself Hl)
      as (first & second & h' & -> & _).
    done.
  - unfold Option.unzip, bind. by reads.
Qed.

(** Of the operations of [Option.ts], applied at the types of their
    signatures with callbacks that complete, the ones that throw are
    [unwrap] and [expect] applied to a [None]; every other application
    completes normally. *)
Theorem Option_only_extractors_on_None_raise (h : heap) (c : ocall) :
  otyped h c ->
  raises (orun c h) = extractor_on_None h c.
Proof.
  intros (Hin & Hcb & Hnest).
  destruct c; simpl in Hin, Hcb, Hnest; simpl orun; simpl extractor_on_None;
    try rewrite Forall_singleton in Hin;
    try (rewrite Forall_cons, Forall_singleton in Hin;
         destruct Hin as [Hin [[b|] Hother]]);
    try reflexivity;
    try (by apply unzip_returns);
    try match goal with
        | |- context [Option.fromNullable ?x] =>
            unfold Option.fromNullable; by destruct (strict_equals x VNull)
        end.
  all: destruct Hin as [[v|] Hself]; rewrite ?Hself.
  all: try match type of Hcb with
           | _ /\ _ => destruct Hcb as [Hcb1 Hcb2]
           end.
  all: unfold Option.and, Option.andThen, Option.expect, Option.filter,
         Option.flatten, Option.inspect, Option.map, Option.mapOr,
         Option.mapOrElse, Option.match_, OptionBridge.okOr,
         OptionBridge.okOrElse, Option.or, Option.orElse,
         OptionBridge.transpose, Option.unwrap, Option.unwrapOr,
         Option.unwrapOrElse, Option.zip, Option.zipWith, bind;
       reads; repeat first [call_callback | call_thunk]; try reflexivity.
  - by destruct (ToBoolean u).
  - by rewrite (isSome_Present _ _ _ Hself).
  - by rewrite (isSome_Absent _ _ Hself).
  - destruct (Hnest v Hself) as [[w|e] Hinner]; by reads.
Qed.

(** Seven applications: two of them are an extractor on a [None]. *)
Lemma Option_only_extractors_on_None_raise_witness :
  raises (orun (ocall_unwrap Option.None) option_store) = true
  /\ raises (orun (ocall_expect "oh no!" Option.None) option_store) = true
  /\ raises (orun (ocall_unwrap (VRef 3)) option_store) = false
  /\ raises (orun (ocall_mapOrElse (ret (VNum 0)) zero Option.None)
               option_store) = false
  /\ raises (orun (ocall_zip (VRef 18) (VRef 20)) option_store) = false
  /\ raises (orun (ocall_unzip (VRef 17)) option_store) = false
  /\ raises (orun (ocall_transpose (VRef 7)) option_store) = false.
Proof.
  assert (total zero) as Hzero by (intros v h; by eexists _, _).
  assert (completes (ret (VNum 0))) as Hret by (intros h; by eexists _, _).
  split; [|split; [|split; [|split; [|split; [|split]]]]].
  - apply (Option_only_extractors_on_None_raise option_store
             (ocall_unwrap Option.None)).
    split; [|split]; simpl; [|exact I|exact I].
    constructor; [by eexists|constructor].
  - apply (Option_only_extractors_on_None_raise option_store
             (ocall_expect "oh no!" Option.None)).
    split; [|split]; simpl; [|exact I|exact I].
    constructor; [by eexists|constructor].
  - apply (Option_only_extractors_on_None_raise option_store
             (ocall_unwrap (VRef 3))).
    split; [|split]; simpl; [|exact I|exact I].
    constructor; [by eexists|constructor].
  - apply (Option_only_extractors_on_None_raise option_store
             (ocall_mapOrElse (ret (VNum 0)) zero Option.None)).
    split; [|split]; simpl; [|by split|exact I].
    constructor; [by eexists|constructor].
  - apply (Option_only_extractors_on_None_raise option_store
             (ocall_zip (VRef 18) (VRef 20))).
    split; [|split]; simpl; [|exact I|exact I].
    constructor; [by eexists|]. constructor; [by eexists|constructor].
  - apply (Option_only_extractors_on_None_raise option_store
             (ocall_unzip (VRef 17))).
    split; [|split]; simpl; [|exact I|].
    + constructor; [by eexists|constructor].
    + intros inner [= <-]. by eexists _, _.
  - apply (Option_only_extractors_on_None_raise option_store
             (ocall_transpose (VRef 7))).
    split; [|split]; simpl; [|exact I|].
    + constructor; [by eexists|constructor].
    + intros inner [= <-]. by eexists.
Defined.

(** ** The operations of [Option.ts] change no object *)

(** Every operation of [Option.ts], on any arguments, leaves each object it
    finds in the store as it is, provided its callbacks do, whether it
    returns or throws. *)
Theorem Option_operations_change_no_object (c : ocall) :
  ocallbacks_only_add c -> only_adds (orun c).
Proof.
  intros Hcb.
  destruct c; simpl in Hcb;
    try match type of Hcb with
        | _ /\ _ => destruct Hcb as [Hcb1 Hcb2]
        end;
    simpl orun;
    unfold Option.Some, Option.and, Option.andThen, Option.expect,
      Option.filter, Option.flatten, Option.fromNullable, Option.inspect,
      Option.map, Option.mapOr, Option.mapOrElse, Option.match_,
      OptionBridge.okOr, OptionBridge.okOrElse, Option.or, Option.orElse,
      OptionBridge.transpose, Option.unwrap, Option.unwrapOr,
      Option.unwrapOrElse, Option.unzip, Option.zip, Option.zipWith,
      Option.isNone, Option.isSome, Result.isErr, Result.Ok, Result.Err,
      Option.Some;
    adds.
Qed.

(** [unzip] of [Some([1, "hi"])] and [okOrElse] on [Option.None]. *)
Lemma Option_operations_change_no_object_witness :
  option_store `prefix_of` (orun (ocall_unzip (VRef 17)) option_store).2
  /\ option_store
     `prefix_of`
     (orun (ocall_okOrElse (Result.Ok (VNum 0)) Option.None) option_store).2.
Proof.
  split.
  - apply (Option_operations_change_no_object (ocall_unzip (VRef 17)))
      with (c := (orun (ocall_unzip (VRef 17)) option_store).1).
    + exact I.
    + reflexivity.
  - apply (Option_operations_change_no_object
             (ocall_okOrElse (Result.Ok (VNum 0)) Option.None))
      with (c := (orun (ocall_okOrElse (Result.Ok (VNum 0)) Option.None)
                    option_store).1).
    + simpl. apply only_adds_alloc.
    + reflexivity.
Defined.

